(** * ziplan-backend: the request handlers of [server.js]

    A shallow embedding of the Express handlers of [src/server.js]
    ([/api/signup], [/api/login], [/api/preferences], [/api/recipe],
    [/api/update-email], [/api/update-password]) and the proofs of the
    properties stated about them.

    - JavaScript values are the inductive [value]; the operators the handlers
      apply to them ([!v], [v == null], [a || b], [?.], [Array.isArray],
      [.includes], [.join], [.split], [.length]) are functions on it.
    - The three mongoose collections are lists of typed documents, in
      insertion order, held in [world] together with a log of the calls made
      to bcrypt and to the text-generation endpoint.
    - A handler is a computation in [M], a state monad over [world] with
      exceptions; the [try { ... } catch] of each route is [try_catch].
    - The libraries the file requires (bcryptjs, jsonwebtoken, the schema
      casts of mongoose and what it stores for an [Object] path,
      [JSON.stringify], the printing of numbers) are the fields of the class
      [Platform]; [ref_platform] is an executable instance. *)

From Stdlib Require Import String Ascii ZArith List Bool Lia DecimalString.
Import ListNotations.
Local Open Scope string_scope.
Local Open Scope Z_scope.

Set Implicit Arguments.
Set Warnings "-register-all".

(** ** JavaScript values *)

(** The numbers of the model are the integers: a JSON number with a fractional
    part has no value here.  The handlers only test a number against zero,
    compare a length and print it, and printing is left to the runtime (the
    field [Number_toString] of [Platform]).  Strings are sequences of code
    units below 256. *)
Inductive value : Type :=
| VUndefined
| VNull
| VBool (b : bool)
| VNum (n : Z)
| VStr (s : string)
| VArr (elems : list value)
| VObj (props : list (string * value)).

(** [!!v] *)
Definition truthy (v : value) : bool :=
  match v with
  | VUndefined | VNull => false
  | VBool b => b
  | VNum n => negb (n =? 0)
  | VStr s => negb (s =? "")%string
  | VArr _ | VObj _ => true
  end.

(** [v == null] *)
Definition nullish (v : value) : bool :=
  match v with
  | VUndefined | VNull => true
  | _ => false
  end.

(** [a || b] *)
Definition or_else (a b : value) : value := if truthy a then a else b.

(** [Array.isArray(v)] *)
Definition Array_isArray (v : value) : bool :=
  match v with
  | VArr _ => true
  | _ => false
  end.

(** Own property [k] of an object literal; [undefined] when there is none. *)
Fixpoint lookup (k : string) (props : list (string * value)) : value :=
  match props with
  | [] => VUndefined
  | (k', v) :: rest => if (k =? k')%string then v else lookup k rest
  end.

(** [v.k] for a name [k] that no prototype defines ([output], [content],
    [text]), on a value [v] that is neither [null] nor [undefined]. *)
Definition prop (k : string) (v : value) : value :=
  match v with
  | VObj props => lookup k props
  | _ => VUndefined
  end.

(** [v[0]] on a value that is neither [null] nor [undefined]. *)
Definition index0 (v : value) : value :=
  match v with
  | VArr elems => hd VUndefined elems
  | VStr (String c _) => VStr (String c "")
  | VObj props => lookup "0" props
  | _ => VUndefined
  end.

(** [v?.f]: the access [f] is skipped when [v] is [null] or [undefined]. *)
Definition opt_chain (f : value -> value) (v : value) : value :=
  if nullish v then VUndefined else f v.

(** The decimal numeral of an integer.  The runtime prints a number this way
    only while it is a safe integer; see [Number_toString]. *)
Definition dec (n : Z) : string := NilZero.string_of_int (Z.to_int n).

(** [s.includes(sub)] on strings. *)
Fixpoint str_includes (sub s : string) : bool :=
  String.prefix sub s ||
  match s with
  | "" => false
  | String _ rest => str_includes sub rest
  end.

(** [s.split(sep)] for a one-character separator. *)
Fixpoint split (sep : ascii) (s : string) : list string :=
  match s with
  | "" => [""]
  | String c rest =>
      if Ascii.eqb c sep then "" :: split sep rest
      else match split sep rest with
           | [] => [String c ""]
           | piece :: pieces => String c piece :: pieces
           end
  end.

(** [sub] occurs in [s]. *)
Definition Contains (sub s : string) : Prop :=
  exists before after, s = before ++ sub ++ after.

(** ** Documents of the three collections *)

Module Recipe.
Record t : Type := mk
  { _id : Z;
    ingredients : list string;
    recipeText : string;
    createdAt : Z }.
End Recipe.

Module UserPreference.
Record t : Type := mk
  { _id : Z;
    dietary : list string;
    equipment : list string;
    budget : option Z;
    cookingHours : option Z;
    mealTimes : value;
    createdAt : Z }.
End UserPreference.

Module User.
Record t : Type := mk
  { _id : Z;
    email : string;
    passwordHash : string;
    createdAt : Z }.
End User.

(** ** Library boundary *)

(** What a handler can throw into its [catch]. *)
Inductive exn : Type :=
| TypeError
| CastError
| ValidationError
| DuplicateKey
| IllegalArguments
| JsonWebTokenError
| TokenExpiredError
| FetchError (message : string).

(** Payload of a token: [{ id, iat, exp }], times in seconds. *)
Module Claims.
Record t : Type := mk
  { id : Z;
    iat : Z;
    exp : Z }.
End Claims.

(** The libraries behind the handlers.  [jwt_encode] and [jwt_decode] sign and
    check with [process.env.JWT_SECRET]; the casts are those of the mongoose
    schema types [String], [[String]] and [Number], and [cast_query] the cast
    of a query condition on a [String] path.  [store_Mixed] is what [save()]
    writes for a value on a path of type [Object]: the schema option
    [minimize], on by default, drops empty objects, so that the value read
    back can be [undefined].  [Number_toString] is the text the runtime gives
    a number in a template literal or in [join]: the decimal numeral of a safe
    integer, exponent notation from 1e21 on. *)
Class Platform : Type :=
  { bcrypt_hash_string : string -> string -> string;
    bcrypt_hash_nonempty : forall p salt, bcrypt_hash_string p salt <> "";
    bcrypt_compare_string : string -> string -> bool;
    jwt_encode : Claims.t -> string;
    jwt_decode : string -> option Claims.t;
    jwt_decode_encode : forall c, jwt_decode (jwt_encode c) = Some c;
    cast_String : value -> option string;
    cast_String_VStr : forall s, cast_String (VStr s) = Some s;
    cast_Strings : value -> option (list string);
    cast_Strings_VArr : forall l, cast_Strings (VArr (map VStr l)) = Some l;
    cast_Number : value -> option (option Z);
    cast_Number_VNum : forall n, cast_Number (VNum n) = Some (Some n);
    cast_query : value -> option (string -> bool);
    cast_query_VStr : forall s,
      exists p, cast_query (VStr s) = Some p /\ forall s', p s' = (s' =? s)%string;
    store_Mixed : value -> value;
    Number_toString : Z -> string;
    JSON_stringify : value -> string;
    JSON_stringify_empty : JSON_stringify (VObj []) = "{}";
    less_than_coerced : value -> Z -> bool;
    error_message : exn -> string }.

(** ** State, inputs of a request, and the handler monad *)

(** Calls that leave the process or cost work. *)
Inductive event : Type :=
| GenSalt (rounds : Z)
| Hash (password : value) (salt : string)
| Compare (password : value) (hash : string)
| Fetch (url : string) (model : string) (input : string).

Record world : Type := mkWorld
  { users : list User.t;
    preferences : list UserPreference.t;
    recipes : list Recipe.t;
    calls : list event }.

(** What one request reads from outside: [Date.now()] in milliseconds, the
    [_id] given to a document built in the request, the salt [bcrypt.genSalt]
    draws, and what the endpoint answers to a prompt once parsed by
    [response.json()]. *)
Record env : Type := mkEnv
  { now : Z;
    fresh_id : Z;
    salt : string;
    api : string -> exn + value }.

Record request : Type := mkRequest
  { authorization : option string;
    body : list (string * value) }.

Record response : Type := mkResponse
  { status : Z;
    json : list (string * value) }.

Definition M (A : Type) : Type := world -> (exn + A) * world.

Definition ret {A} (a : A) : M A := fun w => (inr a, w).

Definition bind {A B} (m : M A) (k : A -> M B) : M B :=
  fun w =>
    match m w with
    | (inr a, w') => k a w'
    | (inl e, w') => (inl e, w')
    end.

Definition throw {A} (e : exn) : M A := fun w => (inl e, w).

Definition try_catch {A} (m : M A) (handler : exn -> M A) : M A :=
  fun w =>
    match m w with
    | (inr a, w') => (inr a, w')
    | (inl e, w') => handler e w'
    end.

Definition get_world : M world := fun w => (inr w, w).

Definition put_world (w : world) : M unit := fun _ => (inr tt, w).

Definition lift {A} (r : exn + A) : M A := fun w => (r, w).

Declare Scope handler_scope.
Delimit Scope handler_scope with handler.
Notation "x <- m ;; k" := (bind m (fun x => k))
  (at level 100, m at next level, right associativity) : handler_scope.
Notation "m ;; k" := (bind m (fun _ => k))
  (at level 100, right associativity) : handler_scope.
Local Open Scope handler_scope.

Definition log (ev : event) : M unit :=
  fun w => (inr tt, mkWorld (users w) (preferences w) (recipes w) (calls w ++ [ev])).

(** [res.status(code).json(obj)]; [res.json(obj)] answers 200. *)
Definition respond (code : Z) (obj : list (string * value)) : M response :=
  ret (mkResponse code obj).

Definition failure (code : Z) (message : string) : M response :=
  respond code [("success", VBool false); ("message", VStr message)].

Definition set_users (us : list User.t) (w : world) : world :=
  mkWorld us (preferences w) (recipes w) (calls w).

Definition set_preferences (ps : list UserPreference.t) (w : world) : world :=
  mkWorld (users w) ps (recipes w) (calls w).

Definition set_recipes (rs : list Recipe.t) (w : world) : world :=
  mkWorld (users w) (preferences w) rs (calls w).

(** ** More JavaScript operators, with their [TypeError]s *)

(** [v.includes(x)] for a string [x], on a truthy [v]: substring test on a
    string, membership on an array; no other JSON value has the method. *)
Definition includes (v : value) (x : string) : exn + bool :=
  match v with
  | VStr s => inr (str_includes x s)
  | VArr elems =>
      inr (existsb (fun e => match e with
                             | VStr s => (s =? x)%string
                             | _ => false
                             end) elems)
  | _ => inl TypeError
  end.

(** [String(v)], as a template literal and [Array.prototype.join] apply it. *)
Fixpoint to_str {P : Platform} (v : value) : string :=
  match v with
  | VUndefined => "undefined"
  | VNull => "null"
  | VBool true => "true"
  | VBool false => "false"
  | VNum n => Number_toString n
  | VStr s => s
  | VArr elems =>
      String.concat ","
        (map (fun e => match e with
                       | VUndefined | VNull => ""
                       | _ => to_str e
                       end) elems)
  | VObj _ => "[object Object]"
  end.

(** [elems.join(sep)] *)
Definition join {P : Platform} (sep : string) (elems : list value) : string :=
  String.concat sep
    (map (fun e => match e with
                   | VUndefined | VNull => ""
                   | _ => to_str e
                   end) elems).

(** [v.join(sep)]: only arrays have the method. *)
Definition Array_join {P : Platform} (sep : string) (v : value) : exn + string :=
  match v with
  | VArr elems => inr (join sep elems)
  | _ => inl TypeError
  end.

(** [v.length] on a truthy [v]. *)
Definition length_of (v : value) : value :=
  match v with
  | VStr s => VNum (Z.of_nat (String.length s))
  | VArr elems => VNum (Z.of_nat (List.length elems))
  | VObj props => lookup "length" props
  | _ => VUndefined
  end.

(** [req.headers.authorization?.split(" ")[1]] *)
Definition bearer_token (authorization : option string) : value :=
  match authorization with
  | None => VUndefined
  | Some header =>
      match nth_error (split " " header) 1 with
      | Some piece => VStr piece
      | None => VUndefined
      end
  end.

(** Milliseconds of the time span ["7d"]. *)
Definition ms_7d : Z := 7 * 24 * 60 * 60 * 1000.

(** The newline of the template literal. *)
Definition nl : string := String (ascii_of_nat 10) "".

(** [UserPreference.findOne().sort({ createdAt: -1 })]: the document with the
    greatest [createdAt]; among equal ones, the one stored first. *)
Fixpoint latest (ps : list UserPreference.t) : option UserPreference.t :=
  match ps with
  | [] => None
  | p :: rest =>
      match latest rest with
      | None => Some p
      | Some q =>
          if UserPreference.createdAt p <? UserPreference.createdAt q
          then Some q else Some p
      end
  end.

(** The update of [findByIdAndUpdate]: the first document with that [_id]. *)
Fixpoint update_first (uid : Z) (f : User.t -> User.t) (us : list User.t)
  : list User.t :=
  match us with
  | [] => []
  | u :: rest =>
      if User._id u =? uid then f u :: rest
      else u :: update_first uid f rest
  end.

Definition with_email (em : string) (u : User.t) : User.t :=
  User.mk (User._id u) em (User.passwordHash u) (User.createdAt u).

Definition with_passwordHash (h : string) (u : User.t) : User.t :=
  User.mk (User._id u) (User.email u) h (User.createdAt u).

(** ** The handlers *)

Section Handlers.

Context {P : Platform} (e : env).

(** *** bcryptjs *)

(** [bcrypt.genSalt(rounds)] *)
Definition bcrypt_genSalt (rounds : Z) : M string :=
  log (GenSalt rounds) ;;
  ret (salt e).

(** [bcrypt.hash(password, salt)]: rejects a password that is no string. *)
Definition bcrypt_hash (password : value) (s : string) : M string :=
  log (Hash password s) ;;
  match password with
  | VStr p => ret (bcrypt_hash_string p s)
  | _ => throw IllegalArguments
  end.

(** [bcrypt.compare(password, hash)] *)
Definition bcrypt_compare (password : value) (hash : string) : M bool :=
  log (Compare password hash) ;;
  match password with
  | VStr p => ret (bcrypt_compare_string p hash)
  | _ => throw IllegalArguments
  end.

(** *** jsonwebtoken *)

(** [jwt.sign({ id }, process.env.JWT_SECRET, { expiresIn: "7d" })] *)
Definition jwt_sign (uid : Z) : M string :=
  let issued := now e / 1000 in
  ret (jwt_encode (Claims.mk uid issued (issued + ms_7d / 1000))).

(** [jwt.verify(token, process.env.JWT_SECRET)]: signature, then expiry. *)
Definition jwt_verify (token : value) : M Claims.t :=
  match token with
  | VStr t =>
      match jwt_decode t with
      | None => throw JsonWebTokenError
      | Some decoded =>
          if Claims.exp decoded <=? now e / 1000
          then throw TokenExpiredError
          else ret decoded
      end
  | _ => throw JsonWebTokenError
  end.

(** *** mongoose models *)

(** [User.findOne({ email })] *)
Definition User_findOne (email : value) : M (option User.t) :=
  match cast_query email with
  | None => throw CastError
  | Some matches =>
      w <- get_world ;;
      ret (find (fun u => matches (User.email u)) (users w))
  end.

(** [new User({ email, passwordHash })] followed by [save()]: both paths are
    required, and [email] carries a unique index. *)
Definition User_save (email : value) (passwordHash : string) : M User.t :=
  match cast_String email with
  | None => throw ValidationError
  | Some em =>
      if (em =? "")%string || (passwordHash =? "")%string
      then throw ValidationError
      else
        w <- get_world ;;
        if existsb (fun u => (User.email u =? em)%string) (users w)
        then throw DuplicateKey
        else
          let newUser := User.mk (fresh_id e) em passwordHash (now e) in
          put_world (set_users (users w ++ [newUser]) w) ;;
          ret newUser
  end.

(** [User.findByIdAndUpdate(id, { email })] *)
Definition User_findByIdAndUpdate_email (uid : Z) (email : value) : M unit :=
  match cast_String email with
  | None => throw CastError
  | Some em =>
      w <- get_world ;;
      if existsb (fun u => User._id u =? uid) (users w)
      then
        if existsb (fun u => negb (User._id u =? uid)
                             && (User.email u =? em)%string) (users w)
        then throw DuplicateKey
        else put_world (set_users (update_first uid (with_email em) (users w)) w)
      else ret tt
  end.

(** [User.findByIdAndUpdate(id, { passwordHash })] *)
Definition User_findByIdAndUpdate_passwordHash (uid : Z) (passwordHash : string)
  : M unit :=
  w <- get_world ;;
  put_world (set_users (update_first uid (with_passwordHash passwordHash) (users w)) w).

(** [new UserPreference({ dietary, equipment, budget, cookingHours,
    mealTimes })] followed by [save()]; [mealTimes] is of schema type
    [Object] and is written as [store_Mixed] gives it. *)
Definition UserPreference_save
  (dietary equipment budget cookingHours mealTimes : value) : M unit :=
  match cast_Strings dietary, cast_Strings equipment,
        cast_Number budget, cast_Number cookingHours with
  | Some d, Some q, Some b, Some c =>
      w <- get_world ;;
      put_world
        (set_preferences
           (preferences w
            ++ [UserPreference.mk (fresh_id e) d q b c (store_Mixed mealTimes)
                  (now e)]) w)
  | _, _, _, _ => throw ValidationError
  end.

(** [new Recipe({ ingredients, recipeText })] followed by [save()]. *)
Definition Recipe_save (ingredients recipeText : value) : M unit :=
  match cast_Strings ingredients, cast_String recipeText with
  | Some l, Some t =>
      w <- get_world ;;
      put_world (set_recipes (recipes w ++ [Recipe.mk (fresh_id e) l t (now e)]) w)
  | _, _ => throw ValidationError
  end.

(** *** the text-generation endpoint *)

(** [fetch(url, { method: "POST", ..., body: JSON.stringify({ model, input }) })]
    followed by [response.json()]. *)
Definition fetch_json (url model input : string) : M value :=
  log (Fetch url model input) ;;
  lift (api e input).

(** *** POST /api/signup *)

Definition signup (req : request) : M response :=
  try_catch
    (let email := lookup "email" (body req) in
     let password := lookup "password" (body req) in
     if negb (truthy email) || negb (truthy password)
     then failure 400 "Email and password required"
     else
       existingUser <- User_findOne email ;;
       match existingUser with
       | Some _ => failure 400 "Email already in use"
       | None =>
           salt <- bcrypt_genSalt 10 ;;
           passwordHash <- bcrypt_hash password salt ;;
           newUser <- User_save email passwordHash ;;
           token <- jwt_sign (User._id newUser) ;;
           respond 200 [("success", VBool true); ("token", VStr token)]
       end)
    (fun _ => failure 500 "Server error during signup").

(** *** POST /api/login *)

Definition login (req : request) : M response :=
  try_catch
    (let email := lookup "email" (body req) in
     let password := lookup "password" (body req) in
     if negb (truthy email) || negb (truthy password)
     then failure 400 "Email and password required"
     else
       user <- User_findOne email ;;
       match user with
       | None => failure 400 "Invalid credentials"
       | Some u =>
           isMatch <- bcrypt_compare password (User.passwordHash u) ;;
           if negb isMatch
           then failure 400 "Invalid credentials"
           else
             token <- jwt_sign (User._id u) ;;
             respond 200 [("success", VBool true); ("token", VStr token)]
       end)
    (fun _ => failure 500 "Server error during login").

(** *** POST /api/preferences *)

Definition savePreferences (req : request) : M response :=
  try_catch
    (let dietary := lookup "dietary" (body req) in
     let equipment := lookup "equipment" (body req) in
     let budget := lookup "budget" (body req) in
     let cookingHours := lookup "cookingHours" (body req) in
     let mealTimes := lookup "mealTimes" (body req) in
     if negb (truthy dietary) || negb (truthy equipment)
        || nullish budget || nullish cookingHours
     then failure 400 "Invalid preferences data"
     else
       UserPreference_save dietary equipment budget cookingHours mealTimes ;;
       respond 200 [("success", VBool true); ("message", VStr "Preferences saved!")])
    (fun _ => failure 500 "Server error saving preferences").

(** *** POST /api/recipe *)

(** [prefs?.f]: [undefined] when no preference document was found. *)
Definition opt_doc (f : UserPreference.t -> value)
  (prefs : option UserPreference.t) : value :=
  match prefs with
  | None => VUndefined
  | Some p => f p
  end.

(** A stored [Number] path: [null] when the document holds none. *)
Definition number_path (n : option Z) : value :=
  match n with
  | Some k => VNum k
  | None => VNull
  end.

(** [${prefs?.dietary?.join(", ") || "None"}] *)
Definition dietary_text (prefs : option UserPreference.t) : string :=
  to_str (or_else
            (opt_doc (fun p => VStr (String.concat ", " (UserPreference.dietary p))) prefs)
            (VStr "None")).

(** [${prefs?.equipment?.join(", ") || "Any"}] *)
Definition equipment_text (prefs : option UserPreference.t) : string :=
  to_str (or_else
            (opt_doc (fun p => VStr (String.concat ", " (UserPreference.equipment p))) prefs)
            (VStr "Any")).

(** [${prefs?.budget || "flexible"}] *)
Definition budget_text (prefs : option UserPreference.t) : string :=
  to_str (or_else (opt_doc (fun p => number_path (UserPreference.budget p)) prefs)
            (VStr "flexible")).

(** [${prefs?.cookingHours || "flexible"}] *)
Definition cookingHours_text (prefs : option UserPreference.t) : string :=
  to_str (or_else (opt_doc (fun p => number_path (UserPreference.cookingHours p)) prefs)
            (VStr "flexible")).

(** [${JSON.stringify(prefs?.mealTimes || {})}] *)
Definition mealTimes_text (prefs : option UserPreference.t) : string :=
  JSON_stringify (or_else (opt_doc UserPreference.mealTimes prefs) (VObj [])).

(** The template literal, around the joined ingredients. *)
Definition build_prompt (joined : string) (prefs : option UserPreference.t)
  : string :=
  nl ++ "Generate a recipe using these ingredients: " ++ joined ++ "." ++ nl
  ++ "Consider these preferences: " ++ nl
  ++ "- Dietary: " ++ dietary_text prefs ++ nl
  ++ "- Equipment available: " ++ equipment_text prefs ++ nl
  ++ "- Weekly budget: $" ++ budget_text prefs ++ nl
  ++ "- Cooking hours per week: " ++ cookingHours_text prefs ++ nl
  ++ "- Meal times: " ++ mealTimes_text prefs ++ nl
  ++ nl
  ++ "Include a title, clear ingredients list, and step-by-step instructions."
  ++ nl.

(** [data.output?.[0]?.content?.[0]?.text]: the first access has no [?.]. *)
Definition nested_text (data : value) : exn + value :=
  if nullish data then inl TypeError
  else inr (opt_chain (prop "text")
              (opt_chain index0
                 (opt_chain (prop "content")
                    (opt_chain index0 (prop "output" data))))).

Definition recipe (req : request) : M response :=
  try_catch
    (let ingredients := lookup "ingredients" (body req) in
     if negb (truthy ingredients) || negb (Array_isArray ingredients)
     then failure 400 "Ingredients must be an array"
     else
       w <- get_world ;;
       let prefs := latest (preferences w) in
       joined <- lift (Array_join ", " ingredients) ;;
       let prompt := build_prompt joined prefs in
       data <- fetch_json "https://api.openai.com/v1/responses" "gpt-4o-mini" prompt ;;
       text <- lift (nested_text data) ;;
       let recipeText := or_else text (VStr "No recipe generated.") in
       Recipe_save ingredients recipeText ;;
       respond 200 [("success", VBool true); ("recipe", recipeText)])
    (fun error =>
       respond 500 [("success", VBool false); ("message", VStr "Server error");
                    ("error", VStr (error_message error))]).

(** *** POST /api/update-email *)

Definition updateEmail (req : request) : M response :=
  try_catch
    (let token := bearer_token (authorization req) in
     if negb (truthy token)
     then failure 401 "Unauthorized"
     else
       decoded <- jwt_verify token ;;
       let email := lookup "email" (body req) in
       invalid <- (if negb (truthy email) then ret true
                   else (found <- lift (includes email "@") ;; ret (negb found))) ;;
       if (invalid : bool)
       then failure 400 "Invalid email"
       else
         existing <- User_findOne email ;;
         match existing with
         | Some _ => failure 400 "Email already in use"
         | None =>
             User_findByIdAndUpdate_email (Claims.id decoded) email ;;
             respond 200 [("success", VBool true);
                          ("message", VStr "Email updated successfully")]
         end)
    (fun _ => failure 500 "Server error updating email").

(** *** POST /api/update-password *)

(** [v < n] for a number [n]; operands that are neither numbers nor
    [undefined], [null] or booleans go through the coercion of the runtime. *)
Definition less_than (v : value) (n : Z) : bool :=
  match v with
  | VNum m => m <? n
  | VUndefined => false
  | VNull => 0 <? n
  | VBool b => (if b then 1 else 0) <? n
  | _ => less_than_coerced v n
  end.

Definition updatePassword (req : request) : M response :=
  try_catch
    (let token := bearer_token (authorization req) in
     if negb (truthy token)
     then failure 401 "Unauthorized"
     else
       decoded <- jwt_verify token ;;
       let password := lookup "password" (body req) in
       if negb (truthy password) || less_than (length_of password) 6
       then failure 400 "Password must be at least 6 characters"
       else
         salt <- bcrypt_genSalt 10 ;;
         passwordHash <- bcrypt_hash password salt ;;
         User_findByIdAndUpdate_passwordHash (Claims.id decoded) passwordHash ;;
         respond 200 [("success", VBool true);
                      ("message", VStr "Password updated successfully")])
    (fun _ => failure 500 "Server error updating password").

End Handlers.

Arguments bcrypt_genSalt : simpl never.
Arguments bcrypt_hash : simpl never.
Arguments bcrypt_compare : simpl never.
Arguments jwt_sign : simpl never.
Arguments jwt_verify : simpl never.
Arguments User_findOne : simpl never.
Arguments User_save : simpl never.
Arguments User_findByIdAndUpdate_email : simpl never.
Arguments User_findByIdAndUpdate_passwordHash : simpl never.
Arguments UserPreference_save : simpl never.
Arguments Recipe_save : simpl never.
Arguments fetch_json : simpl never.
Arguments build_prompt : simpl never.
Arguments nested_text : simpl never.

(** ** An executable platform

    Stand-ins for the libraries, as a test suite would stub them, so that the
    handlers run on concrete requests.  The token format is a prefix code of
    the three claims followed by the signing secret. *)

Module Ref.

Definition secret : string := "test-secret".

Definition hash_string (p salt : string) : string :=
  "$2a$10$" ++ salt ++ "$" ++ p.

Fixpoint ends_with (suffix s : string) : bool :=
  (s =? suffix)%string ||
  match s with
  | "" => false
  | String _ rest => ends_with suffix rest
  end.

Definition compare_string (p hash : string) : bool :=
  ends_with ("$" ++ p) hash.

Fixpoint enc_pos (p : positive) : string :=
  match p with
  | xH => "."
  | xO q => String "0" (enc_pos q)
  | xI q => String "1" (enc_pos q)
  end.

Definition enc_Z (z : Z) : string :=
  match z with
  | Z0 => "z"
  | Zpos p => String "p" (enc_pos p)
  | Zneg p => String "n" (enc_pos p)
  end.

Fixpoint dec_pos (s : string) : option (positive * string) :=
  match s with
  | "" => None
  | String c rest =>
      if Ascii.eqb c "." then Some (xH, rest)
      else if Ascii.eqb c "0" then
        match dec_pos rest with
        | Some (q, r) => Some (xO q, r)
        | None => None
        end
      else if Ascii.eqb c "1" then
        match dec_pos rest with
        | Some (q, r) => Some (xI q, r)
        | None => None
        end
      else None
  end.

Definition dec_Z (s : string) : option (Z * string) :=
  match s with
  | "" => None
  | String c rest =>
      if Ascii.eqb c "z" then Some (0, rest)
      else if Ascii.eqb c "p" then
        match dec_pos rest with
        | Some (q, r) => Some (Zpos q, r)
        | None => None
        end
      else if Ascii.eqb c "n" then
        match dec_pos rest with
        | Some (q, r) => Some (Zneg q, r)
        | None => None
        end
      else None
  end.

Definition encode (c : Claims.t) : string :=
  enc_Z (Claims.id c) ++ enc_Z (Claims.iat c) ++ enc_Z (Claims.exp c) ++ secret.

Definition decode (s : string) : option Claims.t :=
  match dec_Z s with
  | Some (i, s1) =>
      match dec_Z s1 with
      | Some (t, s2) =>
          match dec_Z s2 with
          | Some (x, s3) =>
              if (s3 =? secret)%string then Some (Claims.mk i t x) else None
          | None => None
          end
      | None => None
      end
  | None => None
  end.

Definition castString (v : value) : option string :=
  match v with
  | VStr s => Some s
  | VNum n => Some (dec n)
  | VBool true => Some "true"
  | VBool false => Some "false"
  | _ => None
  end.

Fixpoint castAll (vs : list value) : option (list string) :=
  match vs with
  | [] => Some []
  | v :: rest =>
      match castString v, castAll rest with
      | Some s, Some l => Some (s :: l)
      | _, _ => None
      end
  end.

Definition castStrings (v : value) : option (list string) :=
  match v with
  | VArr elems => castAll elems
  | VUndefined | VNull => Some []
  | _ => castAll [v]
  end.

Definition castNumber (v : value) : option (option Z) :=
  match v with
  | VNum n => Some (Some n)
  | VUndefined | VNull => Some None
  | VBool true => Some (Some 1)
  | VBool false => Some (Some 0)
  | _ => None
  end.

Definition castQuery (v : value) : option (string -> bool) :=
  match castString v with
  | Some s => Some (fun s' => (s' =? s)%string)
  | None => None
  end.

Definition quote : string := String (ascii_of_nat 34) "".

Fixpoint escape (s : string) : string :=
  match s with
  | "" => ""
  | String c rest =>
      (if Ascii.eqb c (ascii_of_nat 34) then "\" ++ quote
       else if Ascii.eqb c "\" then "\\"
       else String c "") ++ escape rest
  end.

Fixpoint stringify (v : value) : string :=
  match v with
  | VUndefined | VNull => "null"
  | VBool true => "true"
  | VBool false => "false"
  | VNum n => dec n
  | VStr s => quote ++ escape s ++ quote
  | VArr elems => "[" ++ String.concat "," (map stringify elems) ++ "]"
  | VObj props =>
      "{" ++ String.concat ","
               ((fix members (ps : list (string * value)) : list string :=
                   match ps with
                   | [] => []
                   | (k, x) :: rest =>
                       (quote ++ escape k ++ quote ++ ":" ++ stringify x)
                       :: members rest
                   end) props)
          ++ "}"
  end.

(** Empty objects are dropped, except directly inside an array. *)
Fixpoint minimize (child : bool) (v : value) : value :=
  match v with
  | VObj props =>
      match (fix members (ps : list (string * value)) : list (string * value) :=
               match ps with
               | [] => []
               | (k, x) :: rest =>
                   match minimize false x with
                   | VUndefined => members rest
                   | x' => (k, x') :: members rest
                   end
               end) props, child with
      | [], false => VUndefined
      | kept, _ => VObj kept
      end
  | VArr elems => VArr (map (minimize true) elems)
  | _ => v
  end.

Definition message (err : exn) : string :=
  match err with
  | TypeError => "TypeError"
  | CastError => "CastError"
  | ValidationError => "ValidationError"
  | DuplicateKey => "E11000 duplicate key error"
  | IllegalArguments => "Illegal arguments"
  | JsonWebTokenError => "jwt malformed"
  | TokenExpiredError => "jwt expired"
  | FetchError m => m
  end.

End Ref.

(** ** Vocabulary of the statements *)

(** The answers the routes give on failure. *)
Definition failed (code : Z) (message : string) : response :=
  mkResponse code [("success", VBool false); ("message", VStr message)].

Definition succeeded (key : string) (v : value) : response :=
  mkResponse 200 [("success", VBool true); (key, v)].

(** A token that [jwt.verify] rejects at time [t] (in milliseconds): it does
    not decode under the secret, or it has expired. *)
Definition rejected {P : Platform} (t : Z) (token : string) : Prop :=
  jwt_decode token = None \/
  exists c, jwt_decode token = Some c /\ Claims.exp c <= t / 1000.

(** A token that [jwt.verify] accepts at time [t], with its payload. *)
Definition accepted {P : Platform} (t : Z) (token : string) (c : Claims.t) : Prop :=
  jwt_decode token = Some c /\ t / 1000 < Claims.exp c.

Definition add_calls (evs : list event) (w : world) : world :=
  mkWorld (users w) (preferences w) (recipes w) (calls w ++ evs).

(** The guard of the route: [!dietary || !equipment || budget == null ||
    cookingHours == null]. *)
Definition invalid_preferences (req : request) : bool :=
  negb (truthy (lookup "dietary" (body req)))
  || negb (truthy (lookup "equipment" (body req)))
  || nullish (lookup "budget" (body req))
  || nullish (lookup "cookingHours" (body req)).

Definition endpoint : string := "https://api.openai.com/v1/responses".

Definition no_recipe : value := VStr "No recipe generated.".

(** The 500 answer of [/api/recipe], which echoes the error message. *)
Definition recipe_error {P : Platform} (err : exn) : response :=
  mkResponse 500 [("success", VBool false); ("message", VStr "Server error");
                  ("error", VStr (error_message err))].

(** The response lacks the nested text: [output], its first item, that
    item's [content], its first block or that block's [text] is missing
    ([undefined], or [null]). *)
Definition missing_text (data : value) : Prop :=
  let output := prop "output" data in
  let item := index0 output in
  let content := prop "content" item in
  let block := index0 content in
  nullish output = true \/ nullish item = true \/ nullish content = true
  \/ nullish block = true \/ nullish (prop "text" block) = true.

Definition has_id (uid : Z) (u : User.t) : bool := User._id u =? uid.

(** *** Requests, users and answers used in the examples *)

(** A request environment for the examples: the clock at 1,700,000,000,000 ms,
    an endpoint that answers every prompt with the given JSON value. *)
Definition ref_env (answer : exn + value) : env :=
  mkEnv 1700000000000 7 "salt" (fun _ => answer).

Definition run (h : env -> request -> M response) (answer : exn + value)
  (req : request) (w : world) : (exn + response) * world :=
  h (ref_env answer) req w.

(** A token for user [uid], issued 1000 seconds before the clock of [ref_env]
    and valid for 7 days. *)
Definition token_for (uid : Z) : string :=
  Ref.encode (Claims.mk uid 1699999000 (1699999000 + 604800)).

(** A token for user [uid] that expired 1000 seconds before that clock. *)
Definition expired_token_for (uid : Z) : string :=
  Ref.encode (Claims.mk uid 1699394200 1699999000).

Definition bearer (token : string) : option string := Some ("Bearer " ++ token).

Definition ann : User.t := User.mk 1 "ann@example.com" "$2a$10$salt$secret1" 1600000000000.

Definition bob : User.t := User.mk 2 "bob@example.com" "$2a$10$salt$secret2" 1600000000001.

Definition two_users : world := mkWorld [ann; bob] [] [] [].

(** An answer of the endpoint that carries a recipe text. *)
Definition pancakes : exn + value :=
  inr (VObj [("output",
              VArr [VObj [("content", VArr [VObj [("text", VStr "Pancakes")]])]])]).

(** An answer of the endpoint whose [output] is empty. *)
Definition no_output : exn + value := inr (VObj [("output", VArr [])]).

Definition egg_flour : request :=
  mkRequest None [("ingredients", VArr [VStr "egg"; VStr "flour"])].

(** *** The stand-ins satisfy the laws of [Platform] *)

Lemma dec_enc_pos (p : positive) (rest : string) :
  Ref.dec_pos (Ref.enc_pos p ++ rest) = Some (p, rest).
Proof.
  induction p as [q IH | q IH | ]; simpl.
  - now rewrite IH.
  - now rewrite IH.
  - reflexivity.
Qed.

Lemma dec_enc_Z (z : Z) (rest : string) :
  Ref.dec_Z (Ref.enc_Z z ++ rest) = Some (z, rest).
Proof.
  destruct z as [ | p | p]; simpl; try reflexivity; now rewrite dec_enc_pos.
Qed.

Lemma append_assoc (a b c : string) : (a ++ b) ++ c = a ++ b ++ c.
Proof.
  induction a as [ | x a IH]; simpl; [reflexivity | now rewrite IH].
Qed.

Lemma decode_encode (c : Claims.t) : Ref.decode (Ref.encode c) = Some c.
Proof.
  destruct c as [i t x]. unfold Ref.decode, Ref.encode. simpl.
  rewrite dec_enc_Z, dec_enc_Z, dec_enc_Z.
  now rewrite String.eqb_refl.
Qed.

Lemma castAll_strings (l : list string) : Ref.castAll (map VStr l) = Some l.
Proof.
  induction l as [ | s l IH]; simpl; [reflexivity | now rewrite IH].
Qed.

Lemma castQuery_string (s : string) :
  exists p, Ref.castQuery (VStr s) = Some p /\ forall s', p s' = (s' =? s)%string.
Proof.
  eexists. split; [reflexivity | reflexivity].
Qed.

Lemma hash_string_nonempty (p salt : string) : Ref.hash_string p salt <> "".
Proof.
  unfold Ref.hash_string. simpl. discriminate.
Qed.

Definition ref_platform : Platform :=
  {| bcrypt_hash_string := Ref.hash_string;
     bcrypt_hash_nonempty := hash_string_nonempty;
     bcrypt_compare_string := Ref.compare_string;
     jwt_encode := Ref.encode;
     jwt_decode := Ref.decode;
     jwt_decode_encode := decode_encode;
     cast_String := Ref.castString;
     cast_String_VStr := fun s => eq_refl;
     cast_Strings := Ref.castStrings;
     cast_Strings_VArr := castAll_strings;
     cast_Number := Ref.castNumber;
     cast_Number_VNum := fun n => eq_refl;
     cast_query := Ref.castQuery;
     cast_query_VStr := castQuery_string;
     store_Mixed := Ref.minimize false;
     Number_toString := dec;
     JSON_stringify := Ref.stringify;
     JSON_stringify_empty := eq_refl;
     less_than_coerced := fun _ _ => false;
     error_message := Ref.message |}.

(** ** Properties of the handlers *)

Ltac run_handler :=
  unfold try_catch, bind, failure, respond, ret, throw, lift, get_world,
    put_world, log, failed, succeeded; simpl.

Section Properties.

Context {P : Platform}.

Lemma truthy_VStr (s : string) : truthy (VStr s) = true <-> s <> "".
Proof.
  simpl. destruct (String.eqb_spec s ""); simpl; split; congruence.
Qed.

Lemma jwt_verify_rejected (e : env) (token : string) (w : world) :
  rejected (now e) token ->
  exists err, jwt_verify e (VStr token) w = (inl err, w).
Proof.
  unfold jwt_verify. intros [Hnone | (c & Hsome & Hexp)].
  - rewrite Hnone. now exists JsonWebTokenError.
  - rewrite Hsome. apply Z.leb_le in Hexp. rewrite Hexp.
    now exists TokenExpiredError.
Qed.

Lemma jwt_verify_accepted (e : env) (token : string) (c : Claims.t) (w : world) :
  accepted (now e) token c ->
  jwt_verify e (VStr token) w = (inr c, w).
Proof.
  unfold jwt_verify. intros [Hsome Hlive]. rewrite Hsome.
  apply Z.leb_gt in Hlive. now rewrite Hlive.
Qed.

(** C1, as the code behaves: [/api/update-email] answers 401 only when no
    token can be read from the [Authorization] header; a token that is
    presented but fails verification (malformed, wrongly signed or expired)
    makes [jwt.verify] throw into the route's [catch], which answers 500.
    In both cases the world, and so every User record, is unchanged. *)
Theorem updateEmail_unauthenticated (e : env) (req : request) (w : world) :
  (truthy (bearer_token (authorization req)) = false ->
   updateEmail e req w = (inr (failed 401 "Unauthorized"), w))
  /\
  (forall token,
      bearer_token (authorization req) = VStr token ->
      token <> "" ->
      rejected (now e) token ->
      updateEmail e req w = (inr (failed 500 "Server error updating email"), w)).
Proof.
  split.
  - intros Hfalsy. unfold updateEmail. run_handler. now rewrite Hfalsy.
  - intros token Htoken Hne Hrej.
    unfold updateEmail. rewrite Htoken.
    apply truthy_VStr in Hne. rewrite Hne.
    destruct (jwt_verify_rejected e w Hrej) as [err Herr].
    run_handler. now rewrite Herr.
Qed.

(** *** Steps of the library calls *)

Lemma find_pointwise {A} (f g : A -> bool) (l : list A) :
  (forall a, f a = g a) -> find f l = find g l.
Proof.
  intros Hfg. induction l as [ | a l IH]; simpl; [reflexivity | ].
  now rewrite Hfg, IH.
Qed.

Lemma find_absent {A} (f : A -> bool) (l : list A) :
  (forall a, In a l -> f a = false) -> find f l = None.
Proof.
  induction l as [ | a l IH]; simpl; intros Hall; [reflexivity | ].
  rewrite (Hall a) by now left. apply IH. intros b Hb. apply Hall. now right.
Qed.

Lemma existsb_absent {A} (f : A -> bool) (l : list A) :
  (forall a, In a l -> f a = false) -> existsb f l = false.
Proof.
  induction l as [ | a l IH]; simpl; intros Hall; [reflexivity | ].
  rewrite (Hall a) by now left. apply IH. intros b Hb. apply Hall. now right.
Qed.

Lemma User_findOne_string (em : string) (w : world) :
  User_findOne (VStr em) w
  = (inr (find (fun u => (User.email u =? em)%string) (users w)), w).
Proof.
  unfold User_findOne.
  destruct (cast_query_VStr em) as (matches & Hcast & Hmatches).
  rewrite Hcast. run_handler.
  f_equal. f_equal. apply find_pointwise. intros u. apply Hmatches.
Qed.

Lemma User_findOne_known (em : string) (w : world) :
  (exists u, In u (users w) /\ User.email u = em) ->
  exists u, User_findOne (VStr em) w = (inr (Some u), w) /\ In u (users w)
            /\ User.email u = em.
Proof.
  intros (u & Hin & Hem). rewrite User_findOne_string.
  destruct (find (fun u0 => (User.email u0 =? em)%string) (users w)) as [v | ] eqn:Hfind.
  - exists v. apply find_some in Hfind. destruct Hfind as [Hv Heq].
    apply String.eqb_eq in Heq. auto.
  - apply find_none with (x := u) in Hfind; [ | assumption].
    rewrite Hem, String.eqb_refl in Hfind. discriminate.
Qed.

Lemma User_findOne_unknown (em : string) (w : world) :
  (forall u, In u (users w) -> User.email u <> em) ->
  User_findOne (VStr em) w = (inr None, w).
Proof.
  intros Hfree. rewrite User_findOne_string. f_equal. f_equal.
  apply find_absent. intros u Hu. apply String.eqb_neq. now apply Hfree.
Qed.

Lemma ms_7d_seconds : ms_7d / 1000 = 7 * 24 * 60 * 60.
Proof. reflexivity. Qed.

Lemma User_save_fresh (e : env) (em h : string) (w : world) :
  em <> "" -> h <> "" ->
  (forall u, In u (users w) -> User.email u <> em) ->
  let newUser := User.mk (fresh_id e) em h (now e) in
  User_save e (VStr em) h w = (inr newUser, set_users (users w ++ [newUser]) w).
Proof.
  intros Hem Hh Hfree. unfold User_save. rewrite cast_String_VStr.
  apply String.eqb_neq in Hem, Hh. rewrite Hem, Hh. run_handler.
  rewrite existsb_absent; [reflexivity | ].
  intros u Hu. apply String.eqb_neq. now apply Hfree.
Qed.

(** *** Signup *)

(** C4: [signup] answers 400 when [email] or [password] is absent (or
    otherwise falsy: [null], empty); for an email that a stored user already
    has it answers 400 and leaves the world, hence the User collection,
    unchanged; otherwise it draws a salt with cost 10, stores one new user
    whose [passwordHash] is the bcrypt hash of the password under that salt,
    and answers with a token that decodes to the new user's [_id], issued
    now and expiring exactly 7 days (604800 seconds) later. *)
Theorem signup_spec (e : env) (req : request) (w : world) :
  let email := lookup "email" (body req) in
  let password := lookup "password" (body req) in
  (truthy email = false \/ truthy password = false ->
   signup e req w = (inr (failed 400 "Email and password required"), w))
  /\
  (forall em,
      email = VStr em ->
      (exists u, In u (users w) /\ User.email u = em) ->
      signup e req w
      = (inr (failed 400 (if truthy email && truthy password
                          then "Email already in use"
                          else "Email and password required")), w))
  /\
  (forall em pw,
      email = VStr em -> password = VStr pw ->
      em <> "" -> pw <> "" ->
      (forall u, In u (users w) -> User.email u <> em) ->
      exists newUser token decoded,
        signup e req w
        = (inr (succeeded "token" (VStr token)),
           mkWorld (users w ++ [newUser]) (preferences w) (recipes w)
             (calls w ++ [GenSalt 10; Hash (VStr pw) (salt e)]))
        /\ User.email newUser = em
        /\ User.passwordHash newUser = bcrypt_hash_string pw (salt e)
        /\ jwt_decode token = Some decoded
        /\ Claims.id decoded = User._id newUser
        /\ Claims.iat decoded = now e / 1000
        /\ Claims.exp decoded = Claims.iat decoded + 7 * 24 * 60 * 60).
Proof.
  intros email password. repeat split.
  - intros Hfalsy. unfold signup. fold email password.
    assert (Hguard : negb (truthy email) || negb (truthy password) = true)
      by (destruct Hfalsy as [H | H]; rewrite H; simpl; auto using orb_true_r).
    rewrite Hguard. reflexivity.
  - intros em Hem Hknown. unfold signup. fold email password.
    destruct (truthy email) eqn:Htruthy; [ | reflexivity].
    destruct (truthy password); [ | reflexivity].
    destruct (User_findOne_known w Hknown) as (u & Hfind & _).
    rewrite Hem. run_handler. now rewrite Hfind.
  - intros em pw Hem Hpw Hem_ne Hpw_ne Hfree.
    set (newUser := User.mk (fresh_id e) em (bcrypt_hash_string pw (salt e)) (now e)).
    set (decoded := Claims.mk (fresh_id e) (now e / 1000)
                      (now e / 1000 + 7 * 24 * 60 * 60)).
    exists newUser, (jwt_encode decoded), decoded.
    split; [ | repeat split; apply jwt_decode_encode].
    unfold signup. fold email password. rewrite Hem, Hpw.
    apply truthy_VStr in Hem_ne as Ht1. apply truthy_VStr in Hpw_ne as Ht2.
    rewrite Ht1, Ht2. run_handler.
    rewrite User_findOne_unknown by assumption. simpl.
    rewrite User_save_fresh;
      [ | assumption | apply bcrypt_hash_nonempty
        | intros u Hu; apply Hfree; exact Hu ].
    simpl. unfold jwt_sign. rewrite ms_7d_seconds. run_handler.
    unfold set_users, add_calls. simpl.
    now rewrite <- app_assoc.
Qed.

(** *** Login *)

Lemma login_unknown_email (e : env) (req : request) (w : world) (em : string) :
  lookup "email" (body req) = VStr em -> em <> "" ->
  truthy (lookup "password" (body req)) = true ->
  (forall u, In u (users w) -> User.email u <> em) ->
  login e req w = (inr (failed 400 "Invalid credentials"), w).
Proof.
  intros Hem Hne Hpw Hfree. unfold login. rewrite Hem, Hpw.
  apply truthy_VStr in Hne. rewrite Hne. run_handler.
  now rewrite User_findOne_unknown by assumption.
Qed.

Lemma login_wrong_password (e : env) (req : request) (w : world) (em pw : string) :
  lookup "email" (body req) = VStr em -> em <> "" ->
  lookup "password" (body req) = VStr pw -> pw <> "" ->
  (exists u, In u (users w) /\ User.email u = em) ->
  (forall u, In u (users w) -> User.email u = em ->
             bcrypt_compare_string pw (User.passwordHash u) = false) ->
  exists hash,
    login e req w
    = (inr (failed 400 "Invalid credentials"), add_calls [Compare (VStr pw) hash] w).
Proof.
  intros Hem Hne Hpw Hpw_ne Hknown Hwrong. unfold login. rewrite Hem, Hpw.
  apply truthy_VStr in Hne, Hpw_ne. rewrite Hne, Hpw_ne.
  destruct (User_findOne_known w Hknown) as (u & Hfind & Hin & Hu).
  exists (User.passwordHash u). run_handler. rewrite Hfind. simpl.
  now rewrite (Hwrong u Hin Hu).
Qed.

Lemma login_password_not_string (e : env) (req : request) (w : world) (em : string) :
  lookup "email" (body req) = VStr em -> em <> "" ->
  truthy (lookup "password" (body req)) = true ->
  (forall s, lookup "password" (body req) <> VStr s) ->
  (exists u, In u (users w) /\ User.email u = em) ->
  exists hash,
    login e req w
    = (inr (failed 500 "Server error during login"),
       add_calls [Compare (lookup "password" (body req)) hash] w).
Proof.
  intros Hem Hne Hpw Hnostring Hknown. unfold login. rewrite Hem, Hpw.
  apply truthy_VStr in Hne. rewrite Hne.
  destruct (User_findOne_known w Hknown) as (u & Hfind & _).
  exists (User.passwordHash u). run_handler. rewrite Hfind. simpl.
  destruct (lookup "password" (body req)) as [ | | b | n | s | elems | props];
    try reflexivity.
  now destruct (Hnostring s).
Qed.

(** C5, as the code behaves: a login with an email that no stored user has is
    answered 400 "Invalid credentials", whatever its password.  A login with
    a stored email gets the same response when its password is a string that
    fails the hash comparison.  But when its password is truthy and no string
    (a number, [true], an array, an object), [bcrypt.compare] throws into the
    route's [catch] and the answer is 500 "Server error during login": with
    such a password the two causes get different responses, and a caller can
    tell a stored email from an unknown one. *)
Theorem login_failure_responses
  (e1 e2 : env) (req1 req2 : request) (w1 w2 : world) (em1 em2 : string) :
  lookup "email" (body req1) = VStr em1 -> em1 <> "" ->
  truthy (lookup "password" (body req1)) = true ->
  (forall u, In u (users w1) -> User.email u <> em1) ->
  lookup "email" (body req2) = VStr em2 -> em2 <> "" ->
  truthy (lookup "password" (body req2)) = true ->
  (exists u, In u (users w2) /\ User.email u = em2) ->
  fst (login e1 req1 w1) = inr (failed 400 "Invalid credentials")
  /\
  (forall pw2,
      lookup "password" (body req2) = VStr pw2 ->
      (forall u, In u (users w2) -> User.email u = em2 ->
                 bcrypt_compare_string pw2 (User.passwordHash u) = false) ->
      fst (login e2 req2 w2) = fst (login e1 req1 w1))
  /\
  ((forall s, lookup "password" (body req2) <> VStr s) ->
   fst (login e2 req2 w2) = inr (failed 500 "Server error during login")
   /\ fst (login e2 req2 w2) <> fst (login e1 req1 w1)).
Proof.
  intros Hem1 Hne1 Hpw1 Hfree Hem2 Hne2 Hpw2 Hknown.
  rewrite (login_unknown_email e1 req1 w1 Hem1 Hne1 Hpw1 Hfree). simpl fst.
  split; [reflexivity | split].
  - intros pw2 Hstr Hwrong.
    assert (Hpw_ne : pw2 <> "").
    { intros ->. rewrite Hstr in Hpw2. discriminate. }
    destruct (login_wrong_password e2 req2 w2 Hem2 Hne2 Hstr Hpw_ne Hknown Hwrong)
      as [hash Hlogin].
    now rewrite Hlogin.
  - intros Hnostring.
    destruct (login_password_not_string e2 req2 w2 Hem2 Hne2 Hpw2 Hnostring Hknown)
      as [hash Hlogin].
    rewrite Hlogin. split; [reflexivity | discriminate].
Qed.

(** *** Preferences *)

Lemma savePreferences_cases (e : env) (req : request) (w : world) :
  (invalid_preferences req = true
   /\ savePreferences e req w = (inr (failed 400 "Invalid preferences data"), w))
  \/
  (invalid_preferences req = false
   /\ savePreferences e req w = (inr (failed 500 "Server error saving preferences"), w))
  \/
  (invalid_preferences req = false
   /\ exists d q b c,
       cast_Strings (lookup "dietary" (body req)) = Some d
       /\ cast_Strings (lookup "equipment" (body req)) = Some q
       /\ cast_Number (lookup "budget" (body req)) = Some b
       /\ cast_Number (lookup "cookingHours" (body req)) = Some c
       /\ savePreferences e req w
          = (inr (succeeded "message" (VStr "Preferences saved!")),
             set_preferences
               (preferences w
                ++ [UserPreference.mk (fresh_id e) d q b c
                      (store_Mixed (lookup "mealTimes" (body req))) (now e)]) w)).
Proof.
  unfold savePreferences. fold (invalid_preferences req).
  destruct (invalid_preferences req); [left; split; reflexivity | right].
  unfold UserPreference_save.
  destruct (cast_Strings (lookup "dietary" (body req))) as [d | ];
    [ | left; split; reflexivity].
  destruct (cast_Strings (lookup "equipment" (body req))) as [q | ];
    [ | left; split; reflexivity].
  destruct (cast_Number (lookup "budget" (body req))) as [b | ];
    [ | left; split; reflexivity].
  destruct (cast_Number (lookup "cookingHours" (body req))) as [c | ];
    [ | left; split; reflexivity].
  right. split; [reflexivity | ]. exists d, q, b, c. repeat split.
Qed.

Lemma savePreferences_stores (e : env) (req : request) (w : world)
  (ds qs : list string) (b c : Z) :
  lookup "dietary" (body req) = VArr (map VStr ds) ->
  lookup "equipment" (body req) = VArr (map VStr qs) ->
  lookup "budget" (body req) = VNum b ->
  lookup "cookingHours" (body req) = VNum c ->
  savePreferences e req w
  = (inr (succeeded "message" (VStr "Preferences saved!")),
     set_preferences
       (preferences w
        ++ [UserPreference.mk (fresh_id e) ds qs (Some b) (Some c)
              (store_Mixed (lookup "mealTimes" (body req))) (now e)]) w).
Proof.
  intros Hds Hqs Hb Hc. unfold savePreferences, UserPreference_save.
  rewrite Hds, Hqs, Hb, Hc. simpl.
  now rewrite !cast_Strings_VArr, !cast_Number_VNum.
Qed.

Lemma list_truthy (v : value) :
  nullish v = true \/ Array_isArray v = true ->
  negb (truthy v) = nullish v.
Proof.
  destruct v; simpl; intros [H | H]; congruence.
Qed.

(** C7: for [dietary] and [equipment] that are absent ([undefined] or
    [null]) or lists, and any [budget], [cookingHours] and [mealTimes],
    [savePreferences] answers 400 "Invalid preferences data" exactly when
    [dietary] or [equipment] is absent or [budget] or [cookingHours] is
    [null] or [undefined]; numbers, zero included, pass the guard and are
    stored.  Whenever the route answers success, the preference collection
    is the old one followed by exactly one new document, and the users and
    recipes are untouched. *)
Theorem savePreferences_spec (e : env) (req : request) (w : world) :
  let dietary := lookup "dietary" (body req) in
  let equipment := lookup "equipment" (body req) in
  let budget := lookup "budget" (body req) in
  let cookingHours := lookup "cookingHours" (body req) in
  nullish dietary = true \/ Array_isArray dietary = true ->
  nullish equipment = true \/ Array_isArray equipment = true ->
  (fst (savePreferences e req w) = inr (failed 400 "Invalid preferences data")
   <-> nullish dietary = true \/ nullish equipment = true
       \/ nullish budget = true \/ nullish cookingHours = true)
  /\
  (fst (savePreferences e req w) = inr (failed 400 "Invalid preferences data") ->
   snd (savePreferences e req w) = w)
  /\
  (fst (savePreferences e req w) = inr (succeeded "message" (VStr "Preferences saved!")) ->
   exists p,
     preferences (snd (savePreferences e req w)) = (preferences w ++ [p])%list
     /\ users (snd (savePreferences e req w)) = users w
     /\ recipes (snd (savePreferences e req w)) = recipes w)
  /\
  (forall ds qs b c,
      dietary = VArr (map VStr ds) -> equipment = VArr (map VStr qs) ->
      budget = VNum b -> cookingHours = VNum c ->
      savePreferences e req w
      = (inr (succeeded "message" (VStr "Preferences saved!")),
         set_preferences
           (preferences w
            ++ [UserPreference.mk (fresh_id e) ds qs (Some b) (Some c)
                  (store_Mixed (lookup "mealTimes" (body req))) (now e)]) w)).
Proof.
  intros dietary equipment budget cookingHours Hd Hq.
  assert (Hguard : invalid_preferences req
                   = nullish dietary || nullish equipment
                     || nullish budget || nullish cookingHours).
  { unfold invalid_preferences. fold dietary equipment budget cookingHours.
    now rewrite (list_truthy dietary Hd), (list_truthy equipment Hq). }
  destruct (savePreferences_cases e req w)
    as [[Hinv Hrun] | [[Hinv Hrun] | (Hinv & d & q & b & c & Hcd & Hcq & Hcb & Hcc & Hrun)]];
    rewrite Hguard in Hinv.
  - repeat split.
    + intros _. repeat (apply orb_true_iff in Hinv; destruct Hinv as [Hinv | Hinv]); auto.
    + now rewrite Hrun.
    + now rewrite Hrun.
    + rewrite Hrun. discriminate.
    + intros ds qs b c Hds Hqs Hb Hc. rewrite Hds, Hqs, Hb, Hc in Hinv. discriminate.
  - repeat split.
    + rewrite Hrun. discriminate.
    + intros Habs. repeat (apply orb_false_iff in Hinv; destruct Hinv as [Hinv ?]).
      destruct Habs as [H' | [H' | [H' | H']]]; congruence.
    + rewrite Hrun. discriminate.
    + rewrite Hrun. discriminate.
    + intros ds qs b c Hds Hqs Hb Hc. now apply savePreferences_stores.
  - repeat split.
    + rewrite Hrun. discriminate.
    + intros Habs. repeat (apply orb_false_iff in Hinv; destruct Hinv as [Hinv ?]).
      destruct Habs as [H' | [H' | [H' | H']]]; congruence.
    + rewrite Hrun. discriminate.
    + intros _. rewrite Hrun. eexists. repeat split.
    + intros ds qs b' c' Hds Hqs Hb Hc. now apply savePreferences_stores.
Qed.

(** *** Recipe generation *)

(** The route on an array of ingredients, call by call. *)
Lemma recipe_array (e : env) (req : request) (w : world) (elems : list value) :
  lookup "ingredients" (body req) = VArr elems ->
  let prompt := build_prompt (join ", " elems) (latest (preferences w)) in
  let sent := add_calls [Fetch endpoint "gpt-4o-mini" prompt] w in
  recipe e req w
  = match api e prompt with
    | inl err => (inr (recipe_error err), sent)
    | inr data =>
        match nested_text data with
        | inl err => (inr (recipe_error err), sent)
        | inr text =>
            match cast_Strings (VArr elems), cast_String (or_else text no_recipe) with
            | Some l, Some t =>
                (inr (succeeded "recipe" (or_else text no_recipe)),
                 set_recipes (recipes w ++ [Recipe.mk (fresh_id e) l t (now e)]) sent)
            | _, _ => (inr (recipe_error ValidationError), sent)
            end
        end
    end.
Proof.
  intros Hing prompt sent. unfold recipe. rewrite Hing. run_handler.
  unfold fetch_json. run_handler. fold prompt.
  destruct (api e prompt) as [err | data]; [reflexivity | ]. simpl.
  destruct (nested_text data) as [err | text]; [reflexivity | ]. simpl.
  unfold Recipe_save.
  destruct (cast_Strings (VArr elems)) as [l | ]; [ | reflexivity].
  destruct (cast_String (or_else text no_recipe)) as [t | ] eqn:Hcast;
    unfold no_recipe in Hcast; rewrite Hcast; reflexivity.
Qed.

Lemma nullish_falsy (v : value) : nullish v = true -> truthy v = false.
Proof. destruct v; simpl; congruence. Qed.

Lemma nested_text_missing (data : value) :
  nullish data = false -> missing_text data ->
  exists text, nested_text data = inr text /\ nullish text = true.
Proof.
  intros Hdata Hmiss. unfold nested_text. rewrite Hdata.
  eexists. split; [reflexivity | ].
  unfold missing_text in Hmiss. unfold opt_chain.
  destruct (nullish (prop "output" data)) eqn:H1; [reflexivity | ].
  destruct (nullish (index0 (prop "output" data))) eqn:H2; [reflexivity | ].
  destruct (nullish (prop "content" (index0 (prop "output" data)))) eqn:H3;
    [reflexivity | ].
  destruct (nullish (index0 (prop "content" (index0 (prop "output" data)))))
    eqn:H4; [reflexivity | ].
  destruct Hmiss as [H | [H | [H | [H | H]]]]; congruence.
Qed.

(** C2: when the ingredients are a list of strings and the endpoint answers
    a JSON value (other than [null]) in which the nested text is missing at
    any of the five levels, [/api/recipe] does not fall into its [catch]:
    it answers 200 with the recipe text "No recipe generated." and appends
    one Recipe document holding the ingredients and that text. *)
Theorem recipe_missing_text (e : env) (req : request) (w : world)
  (l : list string) (data : value) :
  lookup "ingredients" (body req) = VArr (map VStr l) ->
  api e (build_prompt (join ", " (map VStr l)) (latest (preferences w))) = inr data ->
  nullish data = false ->
  missing_text data ->
  recipe e req w
  = (inr (succeeded "recipe" (VStr "No recipe generated.")),
     mkWorld (users w) (preferences w)
       (recipes w ++ [Recipe.mk (fresh_id e) l "No recipe generated." (now e)])
       (calls w ++ [Fetch endpoint "gpt-4o-mini"
                      (build_prompt (join ", " (map VStr l)) (latest (preferences w)))])).
Proof.
  intros Hing Hapi Hdata Hmiss.
  rewrite (recipe_array e req w Hing). cbv zeta. rewrite Hapi.
  destruct (nested_text_missing Hdata Hmiss) as (text & Htext & Hnull).
  rewrite Htext. unfold or_else. rewrite (nullish_falsy _ Hnull).
  unfold no_recipe. now rewrite cast_Strings_VArr, cast_String_VStr.
Qed.

(** *** Substrings of the prompt *)

Lemma prefix_append (a s : string) :
  String.prefix a s = true -> exists rest, s = a ++ rest.
Proof.
  revert s. induction a as [ | c a IH]; intros s Hpre.
  - now exists s.
  - destruct s as [ | d s]; simpl in Hpre; [discriminate | ].
    destruct (ascii_dec c d) as [-> | ]; [ | discriminate].
    destruct (IH s Hpre) as [rest ->]. now exists rest.
Qed.

Lemma str_includes_Contains (sub s : string) :
  str_includes sub s = true -> Contains sub s.
Proof.
  induction s as [ | c s IH]; intros Hinc.
  - destruct sub; [now exists "", "" | discriminate].
  - change (String.prefix sub (String c s) || str_includes sub s = true) in Hinc.
    apply orb_true_iff in Hinc. destruct Hinc as [Hpre | Hlater].
    + destruct (prefix_append _ _ Hpre) as [rest Hrest]. now exists "", rest.
    + destruct (IH Hlater) as (before & after & ->).
      now exists (String c before), after.
Qed.

Lemma Contains_skip (a sub s : string) : Contains sub s -> Contains sub (a ++ s).
Proof.
  intros (before & after & ->). exists (a ++ before), after.
  now rewrite append_assoc.
Qed.

(** The prompt when no preference document exists. *)
Lemma build_prompt_no_preferences (joined : string) :
  build_prompt joined None
  = nl ++ "Generate a recipe using these ingredients: " ++ joined ++ "." ++ nl
    ++ "Consider these preferences: " ++ nl
    ++ "- Dietary: None" ++ nl
    ++ "- Equipment available: Any" ++ nl
    ++ "- Weekly budget: $flexible" ++ nl
    ++ "- Cooking hours per week: flexible" ++ nl
    ++ "- Meal times: {}" ++ nl
    ++ nl
    ++ "Include a title, clear ingredients list, and step-by-step instructions."
    ++ nl.
Proof.
  unfold build_prompt, mealTimes_text. simpl opt_doc. unfold or_else. simpl truthy.
  cbv iota. rewrite JSON_stringify_empty. reflexivity.
Qed.

(** C3: for the ingredients [["egg", "flour"]] and an empty preference
    collection, the prompt posted to the endpoint contains "Dietary: None",
    "Equipment available: Any", "$flexible" and "{}" (and the joined
    ingredients "egg, flour"); and when the endpoint answers a JSON value
    whose text, or the default put in its place, the [String] cast accepts,
    the route answers success and the recipe collection grows by exactly one
    document, whose ingredients are [["egg"; "flour"]]. *)
Theorem recipe_egg_flour_no_preferences (e : env) (req : request) (w : world) :
  lookup "ingredients" (body req) = VArr [VStr "egg"; VStr "flour"] ->
  preferences w = [] ->
  exists prompt,
    calls (snd (recipe e req w)) = (calls w ++ [Fetch endpoint "gpt-4o-mini" prompt])%list
    /\ Contains "egg, flour" prompt
    /\ Contains "Dietary: None" prompt
    /\ Contains "Equipment available: Any" prompt
    /\ Contains "$flexible" prompt
    /\ Contains "{}" prompt
    /\ forall data text t,
        api e prompt = inr data ->
        nested_text data = inr text ->
        cast_String (or_else text (VStr "No recipe generated.")) = Some t ->
        fst (recipe e req w)
        = inr (succeeded "recipe" (or_else text (VStr "No recipe generated.")))
        /\ recipes (snd (recipe e req w))
           = (recipes w ++ [Recipe.mk (fresh_id e) ["egg"; "flour"] t (now e)])%list.
Proof.
  intros Hing Hnone.
  pose proof (recipe_array e req w Hing) as Hrun. cbv zeta in Hrun.
  rewrite Hnone in Hrun. simpl latest in Hrun.
  change (join ", " [VStr "egg"; VStr "flour"]) with "egg, flour" in Hrun.
  assert (Hsub : forall sub,
             str_includes sub (build_prompt "egg, flour" None) = true ->
             Contains sub (build_prompt "egg, flour" None))
    by (intros sub; apply str_includes_Contains).
  exists (build_prompt "egg, flour" None).
  split; [ | repeat (split; [apply Hsub; rewrite build_prompt_no_preferences;
                             vm_compute; reflexivity | ])].
  - rewrite Hrun.
    destruct (api e (build_prompt "egg, flour" None)) as [err | data];
      [reflexivity | ].
    destruct (nested_text data) as [err | text]; [reflexivity | ].
    destruct (cast_Strings _); [ | reflexivity].
    destruct (cast_String _); reflexivity.
  - intros data text t Hapi Htext Hcast.
    rewrite Hrun, Hapi, Htext. fold no_recipe in Hcast. rewrite Hcast.
    change (VArr [VStr "egg"; VStr "flour"]) with (VArr (map VStr ["egg"; "flour"])).
    rewrite cast_Strings_VArr. split; reflexivity.
Qed.

(** The prompt is posted whatever the endpoint then answers. *)
Lemma recipe_posts_prompt (e : env) (req : request) (w : world) (elems : list value) :
  lookup "ingredients" (body req) = VArr elems ->
  calls (snd (recipe e req w))
  = (calls w ++ [Fetch endpoint "gpt-4o-mini"
                   (build_prompt (join ", " elems) (latest (preferences w)))])%list.
Proof.
  intros Hing. rewrite (recipe_array e req w Hing). cbv zeta.
  destruct (api e _) as [err | data]; [reflexivity | ].
  destruct (nested_text data) as [err | text]; [reflexivity | ].
  destruct (cast_Strings _); [ | reflexivity].
  destruct (cast_String _); reflexivity.
Qed.

(** C10: [/api/recipe] accepts the empty list: the request passes the
    validation (the answer is not the 400 of the guard); the prompt posted
    has nothing between "ingredients: " and the full stop, its first line
    being "Generate a recipe using these ingredients: ."; and when the
    endpoint answers a JSON value whose text, or the default put in its place,
    the [String] cast accepts, the route answers success and stores one Recipe
    document whose ingredients are the empty list. *)
Theorem recipe_empty_ingredients (e : env) (req : request) (w : world) :
  lookup "ingredients" (body req) = VArr [] ->
  let prefs := latest (preferences w) in
  let prompt :=
    nl ++ "Generate a recipe using these ingredients: ." ++ nl
    ++ "Consider these preferences: " ++ nl
    ++ "- Dietary: " ++ dietary_text prefs ++ nl
    ++ "- Equipment available: " ++ equipment_text prefs ++ nl
    ++ "- Weekly budget: $" ++ budget_text prefs ++ nl
    ++ "- Cooking hours per week: " ++ cookingHours_text prefs ++ nl
    ++ "- Meal times: " ++ mealTimes_text prefs ++ nl
    ++ nl
    ++ "Include a title, clear ingredients list, and step-by-step instructions."
    ++ nl in
  join ", " [] = ""
  /\ build_prompt "" prefs = prompt
  /\ calls (snd (recipe e req w))
     = (calls w ++ [Fetch endpoint "gpt-4o-mini" prompt])%list
  /\ fst (recipe e req w) <> inr (failed 400 "Ingredients must be an array")
  /\ forall data text t,
      api e prompt = inr data ->
      nested_text data = inr text ->
      cast_String (or_else text (VStr "No recipe generated.")) = Some t ->
      fst (recipe e req w)
      = inr (succeeded "recipe" (or_else text (VStr "No recipe generated.")))
      /\ recipes (snd (recipe e req w))
         = (recipes w ++ [Recipe.mk (fresh_id e) [] t (now e)])%list.
Proof.
  intros Hing prefs prompt.
  assert (Hprompt : build_prompt "" prefs = prompt) by reflexivity.
  split; [reflexivity | ]. split; [exact Hprompt | ].
  split; [rewrite <- Hprompt; exact (recipe_posts_prompt e req w Hing) | ].
  pose proof (recipe_array e req w Hing) as Hrun. cbv zeta in Hrun.
  change (join ", " []) with "" in Hrun.
  fold prefs in Hrun. rewrite Hprompt in Hrun.
  split.
  - rewrite Hrun.
    destruct (api e prompt) as [err | data]; [discriminate | ].
    destruct (nested_text data) as [err | text]; [discriminate | ].
    destruct (cast_Strings _); [ | discriminate].
    destruct (cast_String _); discriminate.
  - intros data text t Hapi Htext Hcast.
    rewrite Hrun, Hapi, Htext. fold no_recipe in Hcast. rewrite Hcast.
    change (VArr []) with (VArr (map VStr [])).
    rewrite cast_Strings_VArr. split; reflexivity.
Qed.

(** *** Falsy preference fields *)

Lemma latest_newest (ps : list UserPreference.t) (p : UserPreference.t) :
  (forall q, In q ps -> UserPreference.createdAt q < UserPreference.createdAt p) ->
  latest (ps ++ [p]) = Some p.
Proof.
  induction ps as [ | q ps IH]; intros Hold; [reflexivity | ].
  simpl. rewrite IH by (intros r Hr; apply Hold; now right).
  assert (Hq : (UserPreference.createdAt q <? UserPreference.createdAt p) = true)
    by (apply Z.ltb_lt, Hold; now left).
  now rewrite Hq.
Qed.

(** C9: a stored preference document renders the placeholder of the
    no-preferences case for each of its fields that is falsy: a [budget] of
    0 gives "$flexible", [cookingHours] of 0 gives "flexible", an empty
    [dietary] list gives "None" and an empty [equipment] list gives "Any", in
    the prompt that [/api/recipe] posts; and [/api/preferences] accepts
    exactly such a submission, storing a document with these values that a
    later recipe request reads as the latest one. *)
Theorem falsy_preferences_render_placeholders :
  (forall (e : env) (req : request) (w : world) (elems : list value)
          (p : UserPreference.t),
      lookup "ingredients" (body req) = VArr elems ->
      latest (preferences w) = Some p ->
      exists prompt,
        calls (snd (recipe e req w))
        = (calls w ++ [Fetch endpoint "gpt-4o-mini" prompt])%list
        /\ (UserPreference.budget p = Some 0 ->
            Contains ("- Weekly budget: $flexible" ++ nl) prompt)
        /\ (UserPreference.cookingHours p = Some 0 ->
            Contains ("- Cooking hours per week: flexible" ++ nl) prompt)
        /\ (UserPreference.dietary p = [] ->
            Contains ("- Dietary: None" ++ nl) prompt)
        /\ (UserPreference.equipment p = [] ->
            Contains ("- Equipment available: Any" ++ nl) prompt))
  /\
  (forall (e : env) (req : request) (w : world),
      lookup "dietary" (body req) = VArr [] ->
      lookup "equipment" (body req) = VArr [] ->
      lookup "budget" (body req) = VNum 0 ->
      lookup "cookingHours" (body req) = VNum 0 ->
      (forall q, In q (preferences w) -> UserPreference.createdAt q < now e) ->
      exists p,
        savePreferences e req w
        = (inr (succeeded "message" (VStr "Preferences saved!")),
           set_preferences (preferences w ++ [p]) w)
        /\ latest (preferences w ++ [p]) = Some p
        /\ UserPreference.dietary p = [] /\ UserPreference.equipment p = []
        /\ UserPreference.budget p = Some 0
        /\ UserPreference.cookingHours p = Some 0).
Proof.
  split.
  - intros e req w elems p Hing Hlatest.
    exists (build_prompt (join ", " elems) (Some p)).
    split; [rewrite <- Hlatest; exact (recipe_posts_prompt e req w Hing) | ].
    unfold build_prompt.
    repeat split; intros Hfield; do 7 apply Contains_skip.
    + do 6 apply Contains_skip.
      unfold budget_text, opt_doc. rewrite Hfield.
      exists "". eexists. reflexivity.
    + do 9 apply Contains_skip.
      unfold cookingHours_text, opt_doc. rewrite Hfield.
      exists "". eexists. reflexivity.
    + unfold dietary_text, opt_doc. rewrite Hfield.
      exists "". eexists. reflexivity.
    + do 3 apply Contains_skip.
      unfold equipment_text, opt_doc. rewrite Hfield.
      exists "". eexists. reflexivity.
  - intros e req w Hd Hq Hb Hc Hold.
    exists (UserPreference.mk (fresh_id e) [] [] (Some 0) (Some 0)
              (store_Mixed (lookup "mealTimes" (body req))) (now e)).
    split; [ | split; [ | repeat split; reflexivity]].
    + exact (savePreferences_stores e req w [] [] Hd Hq Hb Hc).
    + apply latest_newest. exact Hold.
Qed.

(** *** Profile updates *)

Lemma update_first_absent (uid : Z) (f : User.t -> User.t) (us : list User.t) :
  existsb (has_id uid) us = false -> update_first uid f us = us.
Proof.
  unfold has_id. induction us as [ | u us IH]; simpl; [reflexivity | ].
  intros Hnone. apply orb_false_iff in Hnone. destruct Hnone as [Hu Hus].
  rewrite Hu. now rewrite IH.
Qed.

Lemma update_first_find (uid : Z) (f : User.t -> User.t) (us : list User.t) :
  (forall u, User._id (f u) = User._id u) ->
  find (has_id uid) (update_first uid f us) = option_map f (find (has_id uid) us).
Proof.
  unfold has_id. intros Hid. induction us as [ | u us IH]; simpl; [reflexivity | ].
  destruct (User._id u =? uid) eqn:Hu; simpl.
  - now rewrite Hid, Hu.
  - now rewrite Hu.
Qed.

Lemma update_first_others (uid : Z) (f : User.t -> User.t) (us : list User.t)
  (v : User.t) :
  In v us -> User._id v <> uid -> In v (update_first uid f us).
Proof.
  induction us as [ | u us IH]; simpl; [tauto | ].
  intros [-> | Hin] Hother.
  - apply Z.eqb_neq in Hother. rewrite Hother. now left.
  - destruct (User._id u =? uid); right; auto.
Qed.

Lemma set_users_same (w : world) : set_users (users w) w = w.
Proof. now destruct w. Qed.

(** The route for a token that verifies and a string as the new email. *)
Lemma updateEmail_run (e : env) (req : request) (w : world)
  (token : string) (decoded : Claims.t) (em : string) :
  bearer_token (authorization req) = VStr token -> token <> "" ->
  accepted (now e) token decoded ->
  lookup "email" (body req) = VStr em ->
  updateEmail e req w
  = if negb (str_includes "@" em)
    then (inr (failed 400 "Invalid email"), w)
    else match find (fun u => (User.email u =? em)%string) (users w) with
         | Some _ => (inr (failed 400 "Email already in use"), w)
         | None =>
             (inr (succeeded "message" (VStr "Email updated successfully")),
              set_users (update_first (Claims.id decoded) (with_email em) (users w)) w)
         end.
Proof.
  intros Htoken Hne Hacc Hem. unfold updateEmail. rewrite Htoken, Hem.
  apply truthy_VStr in Hne. rewrite Hne. run_handler.
  rewrite (jwt_verify_accepted e w Hacc). simpl.
  destruct (String.eqb_spec em "") as [-> | Hem_ne]; [reflexivity | ]. simpl.
  destruct (str_includes "@" em) eqn:Hinc; [ | reflexivity]. simpl.
  rewrite User_findOne_string. simpl.
  destruct (find _ (users w)) as [u | ] eqn:Hfind; [reflexivity | ].
  unfold User_findByIdAndUpdate_email. rewrite cast_String_VStr. run_handler.
  fold (has_id (Claims.id decoded)).
  destruct (existsb (has_id (Claims.id decoded)) (users w)) eqn:Htarget.
  - rewrite existsb_absent; [reflexivity | ].
    intros u Hu. apply find_none with (x := u) in Hfind; [ | assumption].
    simpl in Hfind. rewrite Hfind. apply andb_false_r.
  - rewrite update_first_absent by exact Htarget.
    now rewrite set_users_same.
Qed.

(** C6, as the code behaves: with a token that verifies and a string as the
    new email, [updateEmail] answers "Invalid email" exactly when the email
    has no "@"; it answers "Email already in use" exactly when the email has
    an "@" and some stored user has it, the caller included; otherwise it
    answers success and overwrites the email of the user the token names,
    leaving every other user as it was. *)
Theorem updateEmail_spec (e : env) (req : request) (w : world)
  (token : string) (decoded : Claims.t) (em : string) :
  bearer_token (authorization req) = VStr token -> token <> "" ->
  accepted (now e) token decoded ->
  lookup "email" (body req) = VStr em ->
  (fst (updateEmail e req w) = inr (failed 400 "Invalid email")
   <-> str_includes "@" em = false)
  /\
  (fst (updateEmail e req w) = inr (failed 400 "Email already in use")
   <-> str_includes "@" em = true
       /\ exists u, In u (users w) /\ User.email u = em)
  /\
  (fst (updateEmail e req w) <> inr (succeeded "message" (VStr "Email updated successfully")) ->
   snd (updateEmail e req w) = w)
  /\
  (str_includes "@" em = true ->
   (forall u, In u (users w) -> User.email u <> em) ->
   updateEmail e req w
   = (inr (succeeded "message" (VStr "Email updated successfully")),
      set_users (update_first (Claims.id decoded) (with_email em) (users w)) w)
   /\ find (has_id (Claims.id decoded))
        (update_first (Claims.id decoded) (with_email em) (users w))
      = option_map (with_email em) (find (has_id (Claims.id decoded)) (users w))
   /\ forall v, In v (users w) -> User._id v <> Claims.id decoded ->
                In v (update_first (Claims.id decoded) (with_email em) (users w))).
Proof.
  intros Htoken Hne Hacc Hem.
  rewrite (updateEmail_run e req w Htoken Hne Hacc Hem).
  destruct (str_includes "@" em) eqn:Hinc; simpl.
  - destruct (find (fun u => (User.email u =? em)%string) (users w)) as [u | ] eqn:Hfind;
      simpl.
    + apply find_some in Hfind. destruct Hfind as [Hin Heq].
      apply String.eqb_eq in Heq.
      split; [split; discriminate | ].
      split; [split; [intros _; split; [reflexivity | now exists u] | reflexivity] | ].
      split; [reflexivity | ].
      intros _ Hfree. now destruct (Hfree u Hin).
    + split; [split; discriminate | ].
      split.
      { split; [discriminate | ].
        intros [_ (u & Hin & Heq)].
        apply find_none with (x := u) in Hfind; [ | assumption].
        simpl in Hfind. rewrite Heq, String.eqb_refl in Hfind. discriminate. }
      split; [intros Hother; now destruct Hother | ].
      intros _ Hfree. split; [reflexivity | ]. split.
      * now apply update_first_find.
      * intros v Hv Hother. now apply update_first_others.
  - split; [split; reflexivity | ].
    split; [split; [discriminate | intros [Habs _]; discriminate] | ].
    split; [reflexivity | discriminate].
Qed.

(** C8: with a token that verifies, [updatePassword] answers 400 to every
    password of fewer than 6 characters and leaves the world as it was: no
    stored [passwordHash] changes and bcrypt is not called.  For a password
    of 6 characters or more it draws a salt with cost 10, hashes the
    password once and overwrites the [passwordHash] of the user the token
    names with that hash, leaving every other user as it was. *)
Theorem updatePassword_spec (e : env) (req : request) (w : world)
  (token : string) (decoded : Claims.t) (pw : string) :
  bearer_token (authorization req) = VStr token -> token <> "" ->
  accepted (now e) token decoded ->
  lookup "password" (body req) = VStr pw ->
  ((String.length pw < 6)%nat ->
   updatePassword e req w
   = (inr (failed 400 "Password must be at least 6 characters"), w))
  /\
  ((6 <= String.length pw)%nat ->
   let hash := bcrypt_hash_string pw (salt e) in
   let stored := update_first (Claims.id decoded) (with_passwordHash hash) (users w) in
   updatePassword e req w
   = (inr (succeeded "message" (VStr "Password updated successfully")),
      mkWorld stored (preferences w) (recipes w)
        (calls w ++ [GenSalt 10; Hash (VStr pw) (salt e)]))
   /\ find (has_id (Claims.id decoded)) stored
      = option_map (with_passwordHash hash) (find (has_id (Claims.id decoded)) (users w))
   /\ forall v, In v (users w) -> User._id v <> Claims.id decoded -> In v stored).
Proof.
  intros Htoken Hne Hacc Hpw.
  assert (Hrun : updatePassword e req w
                 = if negb (truthy (VStr pw)) || (Z.of_nat (String.length pw) <? 6)
                   then (inr (failed 400 "Password must be at least 6 characters"), w)
                   else (inr (succeeded "message" (VStr "Password updated successfully")),
                         mkWorld
                           (update_first (Claims.id decoded)
                              (with_passwordHash (bcrypt_hash_string pw (salt e)))
                              (users w))
                           (preferences w) (recipes w)
                           (calls w ++ [GenSalt 10; Hash (VStr pw) (salt e)]))).
  { unfold updatePassword. rewrite Htoken, Hpw.
    apply truthy_VStr in Hne. rewrite Hne. run_handler.
    rewrite (jwt_verify_accepted e w Hacc). simpl.
    destruct (negb (negb (pw =? "")%string) || (Z.of_nat (String.length pw) <? 6));
      [reflexivity | ].
    unfold User_findByIdAndUpdate_passwordHash. run_handler.
    now rewrite <- app_assoc. }
  rewrite Hrun. split.
  - intros Hshort.
    assert (Hlt : (Z.of_nat (String.length pw) <? 6) = true) by (apply Z.ltb_lt; lia).
    now rewrite Hlt, orb_true_r.
  - intros Hlong hash stored.
    assert (Hge : (Z.of_nat (String.length pw) <? 6) = false) by (apply Z.ltb_ge; lia).
    assert (Htruthy : truthy (VStr pw) = true)
      by (apply truthy_VStr; intros ->; simpl in Hlong; lia).
    rewrite Hge, Htruthy. split; [reflexivity | ]. split.
    + now apply update_first_find.
    + intros v Hv Hother. now apply update_first_others.
Qed.

End Properties.

(** ** The handlers on concrete requests *)

Lemma updateEmail_unauthenticated_witness :
  let body := [("email", VStr "new@example.com")] in
  run (@updateEmail ref_platform) pancakes (mkRequest None body) two_users
  = (inr (failed 401 "Unauthorized"), two_users)
  /\ run (@updateEmail ref_platform) pancakes
       (mkRequest (Some "Bearer abc.def.ghi") body) two_users
     = (inr (failed 500 "Server error updating email"), two_users)
  /\ run (@updateEmail ref_platform) pancakes
       (mkRequest (bearer (expired_token_for 1)) body) two_users
     = (inr (failed 500 "Server error updating email"), two_users).
Proof.
  intros body. split; [ | split].
  - apply (proj1 (@updateEmail_unauthenticated ref_platform (ref_env pancakes)
                    (mkRequest None body) two_users)).
    reflexivity.
  - apply (proj2 (@updateEmail_unauthenticated ref_platform (ref_env pancakes)
                    (mkRequest (Some "Bearer abc.def.ghi") body) two_users))
      with (token := "abc.def.ghi").
    + reflexivity.
    + discriminate.
    + left. reflexivity.
  - apply (proj2 (@updateEmail_unauthenticated ref_platform (ref_env pancakes)
                    (mkRequest (bearer (expired_token_for 1)) body) two_users))
      with (token := expired_token_for 1).
    + reflexivity.
    + discriminate.
    + right. exists (Claims.mk 1 1699394200 1699999000). split.
      * reflexivity.
      * vm_compute. discriminate.
Defined.

Lemma recipe_missing_text_witness :
  run (@recipe ref_platform) no_output egg_flour two_users
  = (inr (succeeded "recipe" (VStr "No recipe generated.")),
     mkWorld [ann; bob] []
       [Recipe.mk 7 ["egg"; "flour"] "No recipe generated." 1700000000000]
       [Fetch endpoint "gpt-4o-mini"
          (@build_prompt ref_platform "egg, flour" None)]).
Proof.
  apply (@recipe_missing_text ref_platform (ref_env no_output) egg_flour two_users
           ["egg"; "flour"] (VObj [("output", VArr [])])).
  - reflexivity.
  - reflexivity.
  - reflexivity.
  - right. left. reflexivity.
Defined.

Lemma recipe_egg_flour_no_preferences_witness :
  exists prompt,
    calls (snd (run (@recipe ref_platform) pancakes egg_flour two_users))
    = [Fetch endpoint "gpt-4o-mini" prompt]
    /\ Contains "Dietary: None" prompt
    /\ Contains "Equipment available: Any" prompt
    /\ Contains "$flexible" prompt
    /\ Contains "{}" prompt
    /\ fst (run (@recipe ref_platform) pancakes egg_flour two_users)
       = inr (succeeded "recipe" (VStr "Pancakes"))
    /\ recipes (snd (run (@recipe ref_platform) pancakes egg_flour two_users))
       = [Recipe.mk 7 ["egg"; "flour"] "Pancakes" 1700000000000].
Proof.
  destruct (@recipe_egg_flour_no_preferences ref_platform (ref_env pancakes)
              egg_flour two_users eq_refl eq_refl)
    as (prompt & Hcalls & _ & Hdietary & Hequipment & Hbudget & Hmeals & Hsaved).
  exists prompt. repeat (split; [assumption | ]).
  apply (Hsaved (VObj [("output",
                        VArr [VObj [("content", VArr [VObj [("text", VStr "Pancakes")]])]])])
           (VStr "Pancakes") "Pancakes"); reflexivity.
Defined.

Lemma recipe_empty_ingredients_witness :
  let req := mkRequest None [("ingredients", VArr [])] in
  calls (snd (run (@recipe ref_platform) pancakes req two_users))
  = [Fetch endpoint "gpt-4o-mini"
       (nl ++ "Generate a recipe using these ingredients: ." ++ nl
        ++ "Consider these preferences: " ++ nl
        ++ "- Dietary: None" ++ nl
        ++ "- Equipment available: Any" ++ nl
        ++ "- Weekly budget: $flexible" ++ nl
        ++ "- Cooking hours per week: flexible" ++ nl
        ++ "- Meal times: {}" ++ nl
        ++ nl
        ++ "Include a title, clear ingredients list, and step-by-step instructions."
        ++ nl)]
  /\ fst (run (@recipe ref_platform) pancakes req two_users)
     = inr (succeeded "recipe" (VStr "Pancakes"))
  /\ recipes (snd (run (@recipe ref_platform) pancakes req two_users))
     = [Recipe.mk 7 [] "Pancakes" 1700000000000].
Proof.
  intros req.
  destruct (@recipe_empty_ingredients ref_platform (ref_env pancakes) req two_users
              eq_refl)
    as (_ & _ & Hcalls & _ & Hsaved).
  split; [exact Hcalls | ].
  apply (Hsaved (VObj [("output",
                        VArr [VObj [("content", VArr [VObj [("text", VStr "Pancakes")]])]])])
           (VStr "Pancakes") "Pancakes"); reflexivity.
Defined.

Lemma signup_spec_witness :
  run (@signup ref_platform) pancakes
    (mkRequest None [("email", VStr "carol@example.com")]) two_users
  = (inr (failed 400 "Email and password required"), two_users)
  /\ run (@signup ref_platform) pancakes
       (mkRequest None [("email", VStr "ann@example.com"); ("password", VStr "hunter22")])
       two_users
     = (inr (failed 400 "Email already in use"), two_users)
  /\ exists newUser token decoded,
      run (@signup ref_platform) pancakes
        (mkRequest None [("email", VStr "carol@example.com"); ("password", VStr "hunter22")])
        two_users
      = (inr (succeeded "token" (VStr token)),
         mkWorld [ann; bob; newUser] [] [] [GenSalt 10; Hash (VStr "hunter22") "salt"])
      /\ User.email newUser = "carol@example.com"
      /\ User.passwordHash newUser = Ref.hash_string "hunter22" "salt"
      /\ Ref.decode token = Some decoded
      /\ Claims.id decoded = User._id newUser
      /\ Claims.iat decoded = 1700000000
      /\ Claims.exp decoded = Claims.iat decoded + 7 * 24 * 60 * 60.
Proof.
  split; [ | split].
  - apply (proj1 (@signup_spec ref_platform (ref_env pancakes)
                    (mkRequest None [("email", VStr "carol@example.com")]) two_users)).
    right. reflexivity.
  - apply (proj1 (proj2 (@signup_spec ref_platform (ref_env pancakes)
                           (mkRequest None [("email", VStr "ann@example.com");
                                            ("password", VStr "hunter22")]) two_users))
             "ann@example.com").
    + reflexivity.
    + exists ann. split; [now left | reflexivity].
  - apply (proj2 (proj2 (@signup_spec ref_platform (ref_env pancakes)
                           (mkRequest None [("email", VStr "carol@example.com");
                                            ("password", VStr "hunter22")]) two_users))
             "carol@example.com" "hunter22").
    + reflexivity.
    + reflexivity.
    + discriminate.
    + discriminate.
    + intros u [<- | [<- | []]]; discriminate.
Defined.

Lemma login_failure_responses_witness :
  let unknown := mkRequest None [("email", VStr "nobody@example.com");
                                 ("password", VNum 123456)] in
  let known := mkRequest None [("email", VStr "ann@example.com");
                               ("password", VNum 123456)] in
  fst (run (@login ref_platform) pancakes unknown two_users)
  = inr (failed 400 "Invalid credentials")
  /\ fst (run (@login ref_platform) pancakes known two_users)
     = inr (failed 500 "Server error during login")
  /\ fst (run (@login ref_platform) pancakes known two_users)
     <> fst (run (@login ref_platform) pancakes unknown two_users).
Proof.
  intros unknown known.
  destruct (@login_failure_responses ref_platform
              (ref_env pancakes) (ref_env pancakes) unknown known two_users two_users
              "nobody@example.com" "ann@example.com")
    as (Hunknown & _ & Hknown).
  - reflexivity.
  - discriminate.
  - reflexivity.
  - intros u [<- | [<- | []]]; discriminate.
  - reflexivity.
  - discriminate.
  - reflexivity.
  - exists ann. split; [now left | reflexivity].
  - destruct Hknown as [H500 Hdiff]; [intros s; discriminate | ].
    split; [exact Hunknown | split; [exact H500 | exact Hdiff]].
Defined.

Lemma savePreferences_spec_witness :
  let zeros := mkRequest None [("dietary", VArr [VStr "vegan"]);
                               ("equipment", VArr [VStr "oven"]);
                               ("budget", VNum 0); ("cookingHours", VNum 0)] in
  let no_budget := mkRequest None [("dietary", VArr [VStr "vegan"]);
                                   ("equipment", VArr [VStr "oven"]);
                                   ("cookingHours", VNum 3)] in
  run (@savePreferences ref_platform) pancakes zeros two_users
  = (inr (succeeded "message" (VStr "Preferences saved!")),
     mkWorld [ann; bob]
       [UserPreference.mk 7 ["vegan"] ["oven"] (Some 0) (Some 0) VUndefined 1700000000000]
       [] [])
  /\ fst (run (@savePreferences ref_platform) pancakes no_budget two_users)
     = inr (failed 400 "Invalid preferences data").
Proof.
  intros zeros no_budget. split.
  - apply (proj2 (proj2 (proj2
             (@savePreferences_spec ref_platform (ref_env pancakes) zeros two_users
                (or_intror eq_refl) (or_intror eq_refl))))
             ["vegan"] ["oven"] 0 0); reflexivity.
  - apply (proj1 (@savePreferences_spec ref_platform (ref_env pancakes) no_budget
                    two_users (or_intror eq_refl) (or_intror eq_refl))).
    right. right. left. reflexivity.
Defined.

Lemma falsy_preferences_render_placeholders_witness :
  let zeros := mkRequest None [("dietary", VArr []); ("equipment", VArr []);
                               ("budget", VNum 0); ("cookingHours", VNum 0)] in
  let stored := UserPreference.mk 7 [] [] (Some 0) (Some 0) VUndefined 1700000000000 in
  fst (run (@savePreferences ref_platform) pancakes zeros two_users)
  = inr (succeeded "message" (VStr "Preferences saved!"))
  /\ exists prompt,
      calls (snd (run (@recipe ref_platform) pancakes egg_flour
                    (mkWorld [ann; bob] [stored] [] [])))
      = [Fetch endpoint "gpt-4o-mini" prompt]
      /\ Contains ("- Weekly budget: $flexible" ++ nl) prompt
      /\ Contains ("- Cooking hours per week: flexible" ++ nl) prompt
      /\ Contains ("- Dietary: None" ++ nl) prompt
      /\ Contains ("- Equipment available: Any" ++ nl) prompt.
Proof.
  intros zeros stored. split.
  - destruct (proj2 (@falsy_preferences_render_placeholders ref_platform)
                (ref_env pancakes) zeros two_users eq_refl eq_refl eq_refl eq_refl)
      as (p & Hrun & _).
    + intros q [].
    + unfold run. rewrite Hrun. reflexivity.
  - destruct (proj1 (@falsy_preferences_render_placeholders ref_platform)
                (ref_env pancakes) egg_flour (mkWorld [ann; bob] [stored] [] [])
                [VStr "egg"; VStr "flour"] stored eq_refl eq_refl)
      as (prompt & Hcalls & Hbudget & Hhours & Hdietary & Hequipment).
    exists prompt.
    split; [exact Hcalls | ].
    split; [exact (Hbudget eq_refl) | ].
    split; [exact (Hhours eq_refl) | ].
    split; [exact (Hdietary eq_refl) | exact (Hequipment eq_refl)].
Defined.

Lemma updateEmail_spec_witness :
  let req := mkRequest (bearer (token_for 1)) [("email", VStr "ann@new.example")] in
  run (@updateEmail ref_platform) pancakes req two_users
  = (inr (succeeded "message" (VStr "Email updated successfully")),
     mkWorld [User.mk 1 "ann@new.example" "$2a$10$salt$secret1" 1600000000000; bob]
       [] [] []).
Proof.
  intros req.
  apply (proj2 (proj2 (proj2
           (@updateEmail_spec ref_platform (ref_env pancakes) req two_users
              (token_for 1) (Claims.mk 1 1699999000 (1699999000 + 604800))
              "ann@new.example" eq_refl ltac:(discriminate)
              (conj eq_refl eq_refl) eq_refl)))).
  - reflexivity.
  - intros u [<- | [<- | []]]; discriminate.
Defined.

Lemma updatePassword_spec_witness :
  let short := mkRequest (bearer (token_for 2)) [("password", VStr "abc12")] in
  let long := mkRequest (bearer (token_for 2)) [("password", VStr "abc123")] in
  run (@updatePassword ref_platform) pancakes short two_users
  = (inr (failed 400 "Password must be at least 6 characters"), two_users)
  /\ run (@updatePassword ref_platform) pancakes long two_users
     = (inr (succeeded "message" (VStr "Password updated successfully")),
        mkWorld [ann; User.mk 2 "bob@example.com" "$2a$10$salt$abc123" 1600000000001]
          [] [] [GenSalt 10; Hash (VStr "abc123") "salt"]).
Proof.
  intros short long. split.
  - apply (proj1 (@updatePassword_spec ref_platform (ref_env pancakes) short two_users
                    (token_for 2) (Claims.mk 2 1699999000 (1699999000 + 604800))
                    "abc12" eq_refl ltac:(discriminate)
                    (conj eq_refl eq_refl) eq_refl)).
    simpl. lia.
  - apply (proj2 (@updatePassword_spec ref_platform (ref_env pancakes) long two_users
                    (token_for 2) (Claims.mk 2 1699999000 (1699999000 + 604800))
                    "abc123" eq_refl ltac:(discriminate)
                    (conj eq_refl eq_refl) eq_refl)).
    simpl. lia.
Defined.

(** C6 fails as stated: a caller who submits the email they already have is
    refused with "Email already in use", although no user other than the
    caller has that email. *)
Lemma updateEmail_own_email_conflict :
  let req := mkRequest (bearer (token_for 1)) [("email", VStr "ann@example.com")] in
  @accepted ref_platform (now (ref_env pancakes)) (token_for 1)
    (Claims.mk 1 1699999000 (1699999000 + 604800))
  /\ run (@updateEmail ref_platform) pancakes req two_users
     = (inr (failed 400 "Email already in use"), two_users)
  /\ ~ (exists u, In u (users two_users) /\ User._id u <> 1
                  /\ User.email u = "ann@example.com").
Proof.
  intros req. split; [split; reflexivity | ]. split; [reflexivity | ].
  intros (u & [<- | [<- | []]] & Hother & Hemail).
  - now apply Hother.
  - discriminate.
Qed.

(** * The rest of the server: routing table, CORS policy and what the routes
    keep

    The properties below are read off the code of the routes as a whole: which
    collections a route can touch, what no route ever does, and how the routes
    compose. *)

(** ** The CORS policy *)

Definition allowedOrigins : list string :=
  ["https://ziplan.vercel.app"; "http://localhost:19006"; "http://localhost:3000"].

(** The [origin] function given to [cors]: [callback(null, true)] is [inr true],
    [callback(new Error(...))] is [inl] of the message.  [origin] is the
    [Origin] header of the request, when it has one. *)
Definition cors_origin (origin : option string) : string + bool :=
  match origin with
  | None => inr true
  | Some o =>
      if negb (truthy (VStr o)) then inr true
      else if existsb (String.eqb o) allowedOrigins then inr true
           else inl "Not allowed by CORS"
  end.

(** ** The POST routes *)

Definition routes {P : Platform} : list (string * (env -> request -> M response)) :=
  [("/api/signup", signup); ("/api/login", login);
   ("/api/preferences", savePreferences); ("/api/recipe", recipe);
   ("/api/update-email", updateEmail); ("/api/update-password", updatePassword)].

(** ** Invariants of computations in [M] *)

(** [m] keeps [I]: whatever [m] returns or throws, it leaves a world in [I]
    when started in one. *)
Definition keeps {A} (I : world -> Prop) (m : M A) : Prop :=
  forall w, I w -> I (snd (m w)).

(** [I] does not look at the log of calls. *)
Definition log_blind (I : world -> Prop) : Prop :=
  forall w evs, I w -> I (add_calls evs w).

(** [w'] is [w] grown: the users of [w] are still there, in order and under
    their [_id]s, possibly followed by new ones; the preference documents, the
    recipes and the log of [w] are prefixes of those of [w']. *)
Definition grows (w w' : world) : Prop :=
  (exists ids, map User._id (users w') = (map User._id (users w) ++ ids)%list)
  /\ (exists ps, preferences w' = (preferences w ++ ps)%list)
  /\ (exists rs, recipes w' = (recipes w ++ rs)%list)
  /\ (exists evs, calls w' = (calls w ++ evs)%list).

(** No character of [s] is a space. *)
Fixpoint spaceless (s : string) : bool :=
  match s with
  | "" => true
  | String c rest => negb (Ascii.eqb c " ") && spaceless rest
  end.

Section Invariants.

Context {P : Platform}.

Variable I : world -> Prop.

Lemma keeps_ret {A} (a : A) : keeps I (ret a).
Proof. intros w Hw. exact Hw. Qed.

Lemma keeps_throw {A} (err : exn) : keeps I (@throw A err).
Proof. intros w Hw. exact Hw. Qed.

Lemma keeps_lift {A} (r : exn + A) : keeps I (lift r).
Proof. intros w Hw. exact Hw. Qed.

Lemma keeps_get_world : keeps I get_world.
Proof. intros w Hw. exact Hw. Qed.

Lemma keeps_bind {A B} (m : M A) (k : A -> M B) :
  keeps I m -> (forall a, keeps I (k a)) -> keeps I (bind m k).
Proof.
  intros Hm Hk w Hw. unfold bind. specialize (Hm w Hw).
  destruct (m w) as [[err | a] w']; simpl in *; [exact Hm | now apply Hk].
Qed.

Lemma keeps_try_catch {A} (m : M A) (handler : exn -> M A) :
  keeps I m -> (forall err, keeps I (handler err)) -> keeps I (try_catch m handler).
Proof.
  intros Hm Hh w Hw. unfold try_catch. specialize (Hm w Hw).
  destruct (m w) as [[err | a] w']; simpl in *; [now apply Hh | exact Hm].
Qed.

Lemma keeps_log (ev : event) : log_blind I -> keeps I (log ev).
Proof. intros Hblind w Hw. exact (Hblind w [ev] Hw). Qed.

End Invariants.

(** One step of a proof that a handler keeps an invariant: the rule of the
    outermost construct. *)
Ltac keeps_step :=
  first
    [ apply keeps_try_catch
    | apply keeps_bind
    | apply keeps_ret
    | apply keeps_throw
    | apply keeps_lift
    | apply keeps_get_world
    | apply keeps_log; assumption
    | match goal with
      | |- forall _, _ => intro
      | |- keeps _ (if ?b then _ else _) => destruct b
      | |- keeps _ (match ?x with _ => _ end) => destruct x
      end ].

Ltac keeps_auto := unfold failure, respond; cbv zeta; repeat keeps_step.

(** The same, trying the rules [calls] of the library calls first. *)
Ltac keeps_with calls :=
  unfold failure, respond; cbv zeta; repeat first [calls | keeps_step].

Section Rules.

Context {P : Platform}.

Variable I : world -> Prop.

(** *** Calls that only read, or only extend the log *)

Lemma keeps_bcrypt_genSalt (e : env) (rounds : Z) :
  log_blind I -> keeps I (bcrypt_genSalt e rounds).
Proof. intros Hblind. unfold bcrypt_genSalt. keeps_auto. Qed.

Lemma keeps_bcrypt_hash (password : value) (s : string) :
  log_blind I -> keeps I (bcrypt_hash password s).
Proof. intros Hblind. unfold bcrypt_hash. keeps_auto. Qed.

Lemma keeps_bcrypt_compare (password : value) (hash : string) :
  log_blind I -> keeps I (bcrypt_compare password hash).
Proof. intros Hblind. unfold bcrypt_compare. keeps_auto. Qed.

Lemma keeps_jwt_sign (e : env) (uid : Z) : keeps I (jwt_sign e uid).
Proof. unfold jwt_sign. keeps_auto. Qed.

Lemma keeps_jwt_verify (e : env) (token : value) : keeps I (jwt_verify e token).
Proof. unfold jwt_verify. keeps_auto. Qed.

Lemma keeps_User_findOne (email : value) : keeps I (User_findOne email).
Proof. unfold User_findOne. keeps_auto. Qed.

Lemma keeps_fetch_json (e : env) (url model input : string) :
  log_blind I -> keeps I (fetch_json e url model input).
Proof. intros Hblind. unfold fetch_json. keeps_auto. Qed.

(** *** Calls that write: what the invariant must allow *)

(** A new user is appended only with a non-empty email that no stored user
    has, a non-empty hash, the fresh [_id] and the current time. *)
Definition allows_new_user (e : env) : Prop :=
  forall w em h,
    I w -> em <> "" -> h <> "" ->
    (forall u, In u (users w) -> User.email u <> em) ->
    I (set_users (users w ++ [User.mk (fresh_id e) em h (now e)]) w).

(** The email of the first user with [_id] [uid] is overwritten only when such
    a user exists and no user with another [_id] has the new email. *)
Definition allows_new_email : Prop :=
  forall w uid em,
    I w ->
    (exists u, In u (users w) /\ User._id u = uid) ->
    (forall u, In u (users w) -> User._id u <> uid -> User.email u <> em) ->
    I (set_users (update_first uid (with_email em) (users w)) w).

Definition allows_new_hash : Prop :=
  forall w uid h,
    I w -> I (set_users (update_first uid (with_passwordHash h) (users w)) w).

Definition allows_new_preference (e : env) : Prop :=
  forall w d q b c m,
    I w ->
    I (set_preferences
         (preferences w ++ [UserPreference.mk (fresh_id e) d q b c m (now e)]) w).

Definition allows_new_recipe (e : env) : Prop :=
  forall w l t,
    I w -> I (set_recipes (recipes w ++ [Recipe.mk (fresh_id e) l t (now e)]) w).

Lemma keeps_User_save (e : env) (email : value) (h : string) :
  allows_new_user e -> keeps I (User_save e email h).
Proof.
  intros Hallow w Hw. unfold User_save.
  destruct (cast_String email) as [em | ]; [ | exact Hw].
  destruct (String.eqb_spec em "") as [ | Hem]; [exact Hw | ].
  destruct (String.eqb_spec h "") as [ | Hh]; [exact Hw | ]. simpl.
  run_handler.
  destruct (existsb (fun u => (User.email u =? em)%string) (users w)) eqn:Hdup;
    [exact Hw | ].
  simpl. apply Hallow; try assumption.
  intros u Hu Heq.
  assert (Hex : existsb (fun u => (User.email u =? em)%string) (users w) = true)
    by (apply existsb_exists; exists u; split; [exact Hu | now apply String.eqb_eq]).
  congruence.
Qed.

Lemma keeps_User_findByIdAndUpdate_email (uid : Z) (email : value) :
  allows_new_email -> keeps I (User_findByIdAndUpdate_email uid email).
Proof.
  intros Hallow w Hw. unfold User_findByIdAndUpdate_email.
  destruct (cast_String email) as [em | ]; [ | exact Hw].
  run_handler.
  destruct (existsb (fun u => User._id u =? uid) (users w)) eqn:Htarget; [ | exact Hw].
  destruct (existsb (fun u => negb (User._id u =? uid) && (User.email u =? em)%string)
              (users w)) eqn:Hdup; [exact Hw | ].
  simpl. apply Hallow; try assumption.
  - apply existsb_exists in Htarget. destruct Htarget as (u & Hu & Hid).
    exists u. split; [exact Hu | now apply Z.eqb_eq].
  - intros u Hu Hother Heq.
    assert (Hex : existsb (fun u => negb (User._id u =? uid)
                                    && (User.email u =? em)%string) (users w) = true).
    { apply existsb_exists. exists u. split; [exact Hu | ].
      apply Z.eqb_neq in Hother. rewrite Hother. now apply String.eqb_eq. }
    congruence.
Qed.

Lemma keeps_User_findByIdAndUpdate_passwordHash (uid : Z) (h : string) :
  allows_new_hash -> keeps I (User_findByIdAndUpdate_passwordHash uid h).
Proof.
  intros Hallow w Hw. unfold User_findByIdAndUpdate_passwordHash.
  run_handler. now apply Hallow.
Qed.

Lemma keeps_UserPreference_save (e : env)
  (dietary equipment budget cookingHours mealTimes : value) :
  allows_new_preference e ->
  keeps I (UserPreference_save e dietary equipment budget cookingHours mealTimes).
Proof.
  intros Hallow w Hw. unfold UserPreference_save.
  destruct (cast_Strings dietary); [ | exact Hw].
  destruct (cast_Strings equipment); [ | exact Hw].
  destruct (cast_Number budget); [ | exact Hw].
  destruct (cast_Number cookingHours); [ | exact Hw].
  run_handler. now apply Hallow.
Qed.

Lemma keeps_Recipe_save (e : env) (ingredients recipeText : value) :
  allows_new_recipe e -> keeps I (Recipe_save e ingredients recipeText).
Proof.
  intros Hallow w Hw. unfold Recipe_save.
  destruct (cast_Strings ingredients); [ | exact Hw].
  destruct (cast_String recipeText); [ | exact Hw].
  run_handler. now apply Hallow.
Qed.

(** *** The six routes *)

Lemma keeps_signup (e : env) (req : request) :
  log_blind I -> allows_new_user e -> keeps I (signup e req).
Proof.
  intros Hblind Hallow. unfold signup.
  keeps_with ltac:(first [ apply keeps_User_findOne
                         | apply keeps_bcrypt_genSalt; assumption
                         | apply keeps_bcrypt_hash; assumption
                         | apply keeps_User_save; assumption
                         | apply keeps_jwt_sign ]).
Qed.

Lemma keeps_login (e : env) (req : request) :
  log_blind I -> keeps I (login e req).
Proof.
  intros Hblind. unfold login.
  keeps_with ltac:(first [ apply keeps_User_findOne
                         | apply keeps_bcrypt_compare; assumption
                         | apply keeps_jwt_sign ]).
Qed.

Lemma keeps_savePreferences (e : env) (req : request) :
  allows_new_preference e -> keeps I (savePreferences e req).
Proof.
  intros Hallow. unfold savePreferences.
  keeps_with ltac:(apply keeps_UserPreference_save; assumption).
Qed.

Lemma keeps_recipe (e : env) (req : request) :
  log_blind I -> allows_new_recipe e -> keeps I (recipe e req).
Proof.
  intros Hblind Hallow. unfold recipe.
  keeps_with ltac:(first [ apply keeps_fetch_json; assumption
                         | apply keeps_Recipe_save; assumption ]).
Qed.

Lemma keeps_updateEmail (e : env) (req : request) :
  allows_new_email -> keeps I (updateEmail e req).
Proof.
  intros Hallow. unfold updateEmail.
  keeps_with ltac:(first [ apply keeps_jwt_verify
                         | apply keeps_User_findOne
                         | apply keeps_User_findByIdAndUpdate_email; assumption ]).
Qed.

Lemma keeps_updatePassword (e : env) (req : request) :
  log_blind I -> allows_new_hash -> keeps I (updatePassword e req).
Proof.
  intros Hblind Hallow. unfold updatePassword.
  keeps_with ltac:(first [ apply keeps_jwt_verify
                         | apply keeps_bcrypt_genSalt; assumption
                         | apply keeps_bcrypt_hash; assumption
                         | apply keeps_User_findByIdAndUpdate_passwordHash; assumption ]).
Qed.

End Rules.

(** ** What the routes keep *)

Section Frames.

Context {P : Platform}.

Lemma map_update_first {B} (g : User.t -> B) (uid : Z) (f : User.t -> User.t)
  (us : list User.t) :
  (forall u, g (f u) = g u) -> map g (update_first uid f us) = map g us.
Proof.
  intros Hfg. induction us as [ | u us IH]; simpl; [reflexivity | ].
  destruct (User._id u =? uid); simpl; [now rewrite Hfg | now rewrite IH].
Qed.

Lemma grows_refl (w : world) : grows w w.
Proof.
  repeat split; exists []; now rewrite app_nil_r.
Qed.

Lemma grows_log_blind (w : world) : log_blind (grows w).
Proof.
  unfold log_blind, grows. intros w1 evs (Hu & Hp & Hr & [evs0 Hc]).
  repeat split; try assumption.
  exists (evs0 ++ evs)%list. simpl. now rewrite Hc, app_assoc.
Qed.

(** X1: no POST route removes or reorders anything: after any request to any
    of the six routes, the users present before are still there in the same
    order under the same [_id]s, and the preference documents, the recipes
    and the log of outside calls are the old ones, possibly followed by new
    entries. *)
Theorem routes_only_append (path : string) (h : env -> request -> M response)
  (e : env) (req : request) (w : world) :
  In (path, h) routes -> grows w (snd (h e req w)).
Proof.
  intros Hroute.
  assert (Huser : allows_new_user (grows w) e).
  { unfold allows_new_user, grows. intros w1 em hh ([ids Hu] & Hp & Hr & Hc) _ _ _.
    repeat split; try assumption.
    exists (ids ++ [fresh_id e])%list. simpl.
    now rewrite map_app, Hu, app_assoc. }
  assert (Hemail : allows_new_email (grows w)).
  { unfold allows_new_email, grows. intros w1 uid em ([ids Hu] & Hp & Hr & Hc) _ _.
    repeat split; try assumption.
    exists ids. simpl. now rewrite map_update_first. }
  assert (Hhash : allows_new_hash (grows w)).
  { unfold allows_new_hash, grows. intros w1 uid hh ([ids Hu] & Hp & Hr & Hc).
    repeat split; try assumption.
    exists ids. simpl. now rewrite map_update_first. }
  assert (Hpref : allows_new_preference (grows w) e).
  { unfold allows_new_preference, grows. intros w1 d q b c m (Hu & [ps Hp] & Hr & Hc).
    repeat split; try assumption.
    eexists. simpl. now rewrite Hp, <- app_assoc. }
  assert (Hrecipe : allows_new_recipe (grows w) e).
  { unfold allows_new_recipe, grows. intros w1 l t (Hu & Hp & [rs Hr] & Hc).
    repeat split; try assumption.
    eexists. simpl. now rewrite Hr, <- app_assoc. }
  pose proof (@grows_log_blind w) as Hblind.
  pose proof (@grows_refl w) as Hstart.
  simpl in Hroute.
  destruct Hroute as [Heq | [Heq | [Heq | [Heq | [Heq | [Heq | []]]]]]];
    injection Heq as _ <-.
  - now apply keeps_signup.
  - now apply keeps_login.
  - now apply keeps_savePreferences.
  - now apply keeps_recipe.
  - now apply keeps_updateEmail.
  - now apply keeps_updatePassword.
Qed.

(** X2: each route touches only its own collection.  The account routes
    never change the preferences or the recipes, and [login] changes no
    collection at all; [/api/preferences] never changes the users, the
    recipes or the log; [/api/recipe] never changes the users or the
    preferences; [/api/update-email] makes no outside call. *)
Theorem routes_frame (e : env) (req : request) (w : world) :
  (preferences (snd (signup e req w)) = preferences w
   /\ recipes (snd (signup e req w)) = recipes w)
  /\ (users (snd (login e req w)) = users w
      /\ preferences (snd (login e req w)) = preferences w
      /\ recipes (snd (login e req w)) = recipes w)
  /\ (users (snd (savePreferences e req w)) = users w
      /\ recipes (snd (savePreferences e req w)) = recipes w
      /\ calls (snd (savePreferences e req w)) = calls w)
  /\ (users (snd (recipe e req w)) = users w
      /\ preferences (snd (recipe e req w)) = preferences w)
  /\ (preferences (snd (updateEmail e req w)) = preferences w
      /\ recipes (snd (updateEmail e req w)) = recipes w
      /\ calls (snd (updateEmail e req w)) = calls w)
  /\ (preferences (snd (updatePassword e req w)) = preferences w
      /\ recipes (snd (updatePassword e req w)) = recipes w).
Proof.
  repeat apply conj.
  - apply (@keeps_signup _ (fun w1 => preferences w1 = preferences w) e req);
      [ | | reflexivity]; repeat intro; assumption.
  - apply (@keeps_signup _ (fun w1 => recipes w1 = recipes w) e req);
      [ | | reflexivity]; repeat intro; assumption.
  - apply (@keeps_login _ (fun w1 => users w1 = users w) e req);
      [ | reflexivity]; repeat intro; assumption.
  - apply (@keeps_login _ (fun w1 => preferences w1 = preferences w) e req);
      [ | reflexivity]; repeat intro; assumption.
  - apply (@keeps_login _ (fun w1 => recipes w1 = recipes w) e req);
      [ | reflexivity]; repeat intro; assumption.
  - apply (@keeps_savePreferences _ (fun w1 => users w1 = users w) e req);
      [ | reflexivity]; repeat intro; assumption.
  - apply (@keeps_savePreferences _ (fun w1 => recipes w1 = recipes w) e req);
      [ | reflexivity]; repeat intro; assumption.
  - apply (@keeps_savePreferences _ (fun w1 => calls w1 = calls w) e req);
      [ | reflexivity]; repeat intro; assumption.
  - apply (@keeps_recipe _ (fun w1 => users w1 = users w) e req);
      [ | | reflexivity]; repeat intro; assumption.
  - apply (@keeps_recipe _ (fun w1 => preferences w1 = preferences w) e req);
      [ | | reflexivity]; repeat intro; assumption.
  - apply (@keeps_updateEmail _ (fun w1 => preferences w1 = preferences w) e req);
      [ | reflexivity]; repeat intro; assumption.
  - apply (@keeps_updateEmail _ (fun w1 => recipes w1 = recipes w) e req);
      [ | reflexivity]; repeat intro; assumption.
  - apply (@keeps_updateEmail _ (fun w1 => calls w1 = calls w) e req);
      [ | reflexivity]; repeat intro; assumption.
  - apply (@keeps_updatePassword _ (fun w1 => preferences w1 = preferences w) e req);
      [ | | reflexivity]; repeat intro; assumption.
  - apply (@keeps_updatePassword _ (fun w1 => recipes w1 = recipes w) e req);
      [ | | reflexivity]; repeat intro; assumption.
Qed.

End Frames.

(** ** Invariants of the User collection *)

Section Accounts.

Context {P : Platform}.

Lemma NoDup_snoc {A} (l : list A) (a : A) :
  NoDup l -> ~ In a l -> NoDup (l ++ [a]).
Proof.
  induction l as [ | b l IH]; simpl; intros Hnd Hnot.
  - constructor; [tauto | constructor].
  - inversion Hnd as [ | ? ? Hb Hl]; subst. constructor.
    + rewrite in_app_iff. simpl. intros [Hin | [-> | []]]; tauto.
    + apply IH; tauto.
Qed.

Lemma emails_update_first (uid : Z) (em x : string) (us : list User.t) :
  In x (map User.email (update_first uid (with_email em) us)) ->
  x = em \/ In x (map User.email us).
Proof.
  induction us as [ | u us IH]; simpl; [tauto | ].
  destruct (User._id u =? uid); simpl.
  - intros [<- | Hin]; auto.
  - intros [<- | Hin]; [auto | ]. destruct (IH Hin); auto.
Qed.

Lemma NoDup_emails_update_first (uid : Z) (em : string) (us : list User.t) :
  NoDup (map User._id us) ->
  NoDup (map User.email us) ->
  (forall u, In u us -> User._id u <> uid -> User.email u <> em) ->
  NoDup (map User.email (update_first uid (with_email em) us)).
Proof.
  induction us as [ | u us IH]; simpl; intros Hids Hemails Hothers; [constructor | ].
  inversion Hids as [ | ? ? Hid_u Hids']; subst.
  inversion Hemails as [ | ? ? Hem_u Hemails']; subst.
  destruct (User._id u =? uid) eqn:Hu; simpl.
  - apply Z.eqb_eq in Hu. constructor; [ | assumption].
    intros Hin. apply in_map_iff in Hin. destruct Hin as (v & Hv & Hin).
    apply (Hothers v); [now right | | assumption].
    intros Hsame. apply Hid_u. apply in_map_iff. exists v. split; [congruence | assumption].
  - apply Z.eqb_neq in Hu. constructor.
    + intros Hin. apply emails_update_first in Hin. destruct Hin as [Heq | Hin].
      * apply (Hothers u); [now left | assumption | assumption].
      * now apply Hem_u.
    + apply IH; try assumption. intros v Hv. apply Hothers. now right.
Qed.

(** X3: [signup] keeps the emails of the stored users pairwise distinct, and
    keeps every stored user with a non-empty email and a non-empty password
    hash, whatever the request body holds. *)
Theorem signup_keeps_accounts_wellformed (e : env) (req : request) (w : world) :
  (NoDup (map User.email (users w)) ->
   NoDup (map User.email (users (snd (signup e req w)))))
  /\
  (Forall (fun u => User.email u <> "" /\ User.passwordHash u <> "") (users w) ->
   Forall (fun u => User.email u <> "" /\ User.passwordHash u <> "")
     (users (snd (signup e req w)))).
Proof.
  split; intros Hstart.
  - apply (@keeps_signup _ (fun w1 => NoDup (map User.email (users w1))) e req);
      [ | | exact Hstart].
    + intros w1 evs Hw1. exact Hw1.
    + intros w1 em h Hw1 _ _ Hfree. simpl. rewrite map_app. simpl.
      apply NoDup_snoc; [exact Hw1 | ].
      intros Hin. apply in_map_iff in Hin. destruct Hin as (u & Hu & Hin).
      now apply (Hfree u).
  - apply (@keeps_signup _
             (fun w1 => Forall (fun u => User.email u <> "" /\ User.passwordHash u <> "")
                          (users w1)) e req);
      [ | | exact Hstart].
    + intros w1 evs Hw1. exact Hw1.
    + intros w1 em h Hw1 Hem Hh _. simpl. apply Forall_app. split; [exact Hw1 | ].
      constructor; [ | constructor]. simpl. split; assumption.
Qed.

(** X4: when the stored users have pairwise distinct [_id]s and pairwise
    distinct emails, they still have after any request to
    [/api/update-email]: the route never makes two users share an email. *)
Theorem updateEmail_keeps_emails_distinct (e : env) (req : request) (w : world) :
  NoDup (map User._id (users w)) ->
  NoDup (map User.email (users w)) ->
  NoDup (map User._id (users (snd (updateEmail e req w))))
  /\ NoDup (map User.email (users (snd (updateEmail e req w)))).
Proof.
  intros Hids Hemails.
  apply (@keeps_updateEmail _
           (fun w1 => NoDup (map User._id (users w1))
                      /\ NoDup (map User.email (users w1))) e req);
    [ | split; assumption].
  intros w1 uid em [Hids1 Hemails1] _ Hothers. simpl. split.
  - now rewrite map_update_first.
  - now apply NoDup_emails_update_first.
Qed.

(** X5: the profile routes change one field only.  After any request to
    [/api/update-password] the stored users have the same [_id]s, emails and
    creation times as before, in the same order; after any request to
    [/api/update-email] they have the same [_id]s, password hashes and
    creation times. *)
Theorem profile_updates_change_one_field (e : env) (req : request) (w : world) :
  (map User._id (users (snd (updatePassword e req w))) = map User._id (users w)
   /\ map User.email (users (snd (updatePassword e req w))) = map User.email (users w)
   /\ map User.createdAt (users (snd (updatePassword e req w)))
      = map User.createdAt (users w))
  /\
  (map User._id (users (snd (updateEmail e req w))) = map User._id (users w)
   /\ map User.passwordHash (users (snd (updateEmail e req w)))
      = map User.passwordHash (users w)
   /\ map User.createdAt (users (snd (updateEmail e req w)))
      = map User.createdAt (users w)).
Proof.
  repeat apply conj.
  - apply (@keeps_updatePassword _ (fun w1 => map User._id (users w1) = map User._id (users w))
             e req); [ | | reflexivity].
    + intros w1 evs Hw1. exact Hw1.
    + intros w1 uid h Hw1. simpl. now rewrite map_update_first.
  - apply (@keeps_updatePassword _
             (fun w1 => map User.email (users w1) = map User.email (users w)) e req);
      [ | | reflexivity].
    + intros w1 evs Hw1. exact Hw1.
    + intros w1 uid h Hw1. simpl. now rewrite map_update_first.
  - apply (@keeps_updatePassword _
             (fun w1 => map User.createdAt (users w1) = map User.createdAt (users w))
             e req); [ | | reflexivity].
    + intros w1 evs Hw1. exact Hw1.
    + intros w1 uid h Hw1. simpl. now rewrite map_update_first.
  - apply (@keeps_updateEmail _ (fun w1 => map User._id (users w1) = map User._id (users w))
             e req); [ | reflexivity].
    intros w1 uid em Hw1 _ _. simpl. now rewrite map_update_first.
  - apply (@keeps_updateEmail _
             (fun w1 => map User.passwordHash (users w1) = map User.passwordHash (users w))
             e req); [ | reflexivity].
    intros w1 uid em Hw1 _ _. simpl. now rewrite map_update_first.
  - apply (@keeps_updateEmail _
             (fun w1 => map User.createdAt (users w1) = map User.createdAt (users w))
             e req); [ | reflexivity].
    intros w1 uid em Hw1 _ _. simpl. now rewrite map_update_first.
Qed.

End Accounts.

(** ** Signing up, logging in and using the token *)

(** The payload [jwt.sign] writes for user [uid] at the clock of [e]. *)
Definition claims_at (e : env) (uid : Z) : Claims.t :=
  Claims.mk uid (now e / 1000) (now e / 1000 + 7 * 24 * 60 * 60).

Section Sessions.

Context {P : Platform}.

Lemma find_unique (em : string) (us : list User.t) (u : User.t) :
  NoDup (map User.email us) -> In u us -> User.email u = em ->
  find (fun v => (User.email v =? em)%string) us = Some u.
Proof.
  induction us as [ | v us IH]; simpl; intros Hnd Hin Hem; [tauto | ].
  inversion Hnd as [ | ? ? Hv Hus]; subst.
  destruct Hin as [-> | Hin].
  - now rewrite String.eqb_refl.
  - destruct (String.eqb_spec (User.email v) (User.email u)) as [Heq | _].
    + exfalso. apply Hv. rewrite Heq. now apply in_map.
    + now apply IH.
Qed.

Lemma find_snoc_new (em : string) (us : list User.t) (u : User.t) :
  (forall v, In v us -> User.email v <> em) -> User.email u = em ->
  find (fun v => (User.email v =? em)%string) (us ++ [u]) = Some u.
Proof.
  intros Hfree Hem. induction us as [ | v us IH]; simpl.
  - now rewrite Hem, String.eqb_refl.
  - destruct (String.eqb_spec (User.email v) em) as [Heq | _].
    + exfalso. apply (Hfree v); [now left | assumption].
    + apply IH. intros x Hx. apply Hfree. now right.
Qed.

(** [signup] on a new email and a password, both non-empty strings. *)
Lemma signup_run_fresh (e : env) (req : request) (w : world) (em pw : string) :
  lookup "email" (body req) = VStr em -> lookup "password" (body req) = VStr pw ->
  em <> "" -> pw <> "" ->
  (forall u, In u (users w) -> User.email u <> em) ->
  signup e req w
  = (inr (succeeded "token" (VStr (jwt_encode (claims_at e (fresh_id e))))),
     mkWorld (users w ++ [User.mk (fresh_id e) em (bcrypt_hash_string pw (salt e)) (now e)])
       (preferences w) (recipes w)
       (calls w ++ [GenSalt 10; Hash (VStr pw) (salt e)])).
Proof.
  intros Hem Hpw Hem_ne Hpw_ne Hfree. unfold signup. rewrite Hem, Hpw.
  apply truthy_VStr in Hem_ne as Ht1. apply truthy_VStr in Hpw_ne as Ht2.
  rewrite Ht1, Ht2. run_handler.
  rewrite User_findOne_unknown by assumption. simpl.
  rewrite User_save_fresh;
    [ | assumption | apply bcrypt_hash_nonempty | intros u Hu; apply Hfree; exact Hu ].
  simpl. unfold jwt_sign, claims_at. rewrite ms_7d_seconds. run_handler.
  unfold set_users. simpl. now rewrite <- app_assoc.
Qed.

(** [login] on an email and a password, both non-empty strings. *)
Lemma login_run (e : env) (req : request) (w : world) (em pw : string) :
  lookup "email" (body req) = VStr em -> lookup "password" (body req) = VStr pw ->
  em <> "" -> pw <> "" ->
  login e req w
  = match find (fun v => (User.email v =? em)%string) (users w) with
    | None => (inr (failed 400 "Invalid credentials"), w)
    | Some u =>
        (inr (if bcrypt_compare_string pw (User.passwordHash u)
              then succeeded "token" (VStr (jwt_encode (claims_at e (User._id u))))
              else failed 400 "Invalid credentials"),
         add_calls [Compare (VStr pw) (User.passwordHash u)] w)
    end.
Proof.
  intros Hem Hpw Hem_ne Hpw_ne. unfold login. rewrite Hem, Hpw.
  apply truthy_VStr in Hem_ne, Hpw_ne. rewrite Hem_ne, Hpw_ne. run_handler.
  rewrite User_findOne_string. simpl.
  destruct (find _ (users w)) as [u | ]; [ | reflexivity]. simpl.
  destruct (bcrypt_compare_string pw (User.passwordHash u)); simpl; [ | reflexivity].
  unfold jwt_sign, claims_at. now rewrite ms_7d_seconds.
Qed.

(** X6: with distinct stored emails, a login with the email of a stored user
    and a password that bcrypt matches against that user's hash answers 200
    with a token that decodes to that user's [_id], issued now and expiring
    7 days later; it makes one bcrypt comparison and changes no collection. *)
Theorem login_success (e : env) (req : request) (w : world)
  (em pw : string) (u : User.t) :
  lookup "email" (body req) = VStr em -> lookup "password" (body req) = VStr pw ->
  em <> "" -> pw <> "" ->
  NoDup (map User.email (users w)) ->
  In u (users w) -> User.email u = em ->
  bcrypt_compare_string pw (User.passwordHash u) = true ->
  exists token,
    login e req w
    = (inr (succeeded "token" (VStr token)),
       mkWorld (users w) (preferences w) (recipes w)
         (calls w ++ [Compare (VStr pw) (User.passwordHash u)]))
    /\ jwt_decode token
       = Some (Claims.mk (User._id u) (now e / 1000) (now e / 1000 + 7 * 24 * 60 * 60)).
Proof.
  intros Hem Hpw Hem_ne Hpw_ne Hnd Hin Hu Hmatch.
  exists (jwt_encode (claims_at e (User._id u))).
  split; [ | apply jwt_decode_encode].
  rewrite (login_run e req w Hem Hpw Hem_ne Hpw_ne).
  rewrite find_unique with (u := u) by assumption. now rewrite Hmatch.
Qed.

(** X7: signing up and then logging in with the same email and password
    succeeds, on any platform whose [bcrypt.compare] accepts a password
    against its own hash: the login, at any later clock, answers 200 with a
    token that decodes to the [_id] given at signup. *)
Theorem signup_then_login (e1 e2 : env) (req1 req2 : request) (w : world)
  (em pw : string) :
  (forall p s, bcrypt_compare_string p (bcrypt_hash_string p s) = true) ->
  lookup "email" (body req1) = VStr em -> lookup "password" (body req1) = VStr pw ->
  lookup "email" (body req2) = VStr em -> lookup "password" (body req2) = VStr pw ->
  em <> "" -> pw <> "" ->
  (forall u, In u (users w) -> User.email u <> em) ->
  exists token,
    fst (login e2 req2 (snd (signup e1 req1 w))) = inr (succeeded "token" (VStr token))
    /\ jwt_decode token
       = Some (Claims.mk (fresh_id e1) (now e2 / 1000)
                 (now e2 / 1000 + 7 * 24 * 60 * 60)).
Proof.
  intros Hcheck Hem1 Hpw1 Hem2 Hpw2 Hem_ne Hpw_ne Hfree.
  exists (jwt_encode (claims_at e2 (fresh_id e1))).
  split; [ | apply jwt_decode_encode].
  rewrite (signup_run_fresh e1 req1 w Hem1 Hpw1 Hem_ne Hpw_ne Hfree).
  rewrite (login_run e2 req2 _ Hem2 Hpw2 Hem_ne Hpw_ne). simpl.
  rewrite find_snoc_new; [ | assumption | reflexivity]. simpl.
  now rewrite Hcheck.
Qed.

(** X8: an email can be registered once: after a successful signup, every
    further signup with the same email and any non-empty password is refused
    with 400 "Email already in use" and stores nothing. *)
Theorem signup_twice_refused (e1 e2 : env) (req1 req2 : request) (w : world)
  (em pw : string) :
  lookup "email" (body req1) = VStr em -> lookup "password" (body req1) = VStr pw ->
  em <> "" -> pw <> "" ->
  (forall u, In u (users w) -> User.email u <> em) ->
  lookup "email" (body req2) = VStr em ->
  truthy (lookup "password" (body req2)) = true ->
  signup e2 req2 (snd (signup e1 req1 w))
  = (inr (failed 400 "Email already in use"), snd (signup e1 req1 w)).
Proof.
  intros Hem1 Hpw1 Hem_ne Hpw_ne Hfree Hem2 Hpw2.
  rewrite (signup_run_fresh e1 req1 w Hem1 Hpw1 Hem_ne Hpw_ne Hfree). simpl.
  unfold signup. rewrite Hem2, Hpw2.
  apply truthy_VStr in Hem_ne. rewrite Hem_ne. run_handler.
  rewrite User_findOne_string. simpl.
  rewrite find_snoc_new; [reflexivity | assumption | reflexivity].
Qed.

End Sessions.

Section Tokens.

Context {P : Platform}.

(** The only token [signup] ever answers with. *)
Lemma signup_token_inversion (e : env) (req : request) (w : world) (token : string) :
  fst (signup e req w) = inr (succeeded "token" (VStr token)) ->
  token = jwt_encode (claims_at e (fresh_id e)).
Proof.
  unfold signup, User_findOne, bcrypt_genSalt, bcrypt_hash, User_save, jwt_sign,
    claims_at.
  rewrite ms_7d_seconds. run_handler.
  destruct (negb (truthy (lookup "email" (body req)))
            || negb (truthy (lookup "password" (body req)))); [discriminate | ].
  destruct (cast_query (lookup "email" (body req))); simpl; [ | discriminate].
  destruct (find _ (users w)); simpl; [discriminate | ].
  destruct (lookup "password" (body req)); simpl; try discriminate.
  destruct (cast_String (lookup "email" (body req))); simpl; [ | discriminate].
  destruct ((s0 =? "")%string || (bcrypt_hash_string s (salt e) =? "")%string);
    simpl; [discriminate | ].
  destruct (existsb _ _); simpl; [discriminate | ].
  intros Heq. now injection Heq as <-.
Qed.

(** [updatePassword] for a token that verifies and a string as password. *)
Lemma updatePassword_run (e : env) (req : request) (w : world)
  (token : string) (decoded : Claims.t) (pw : string) :
  bearer_token (authorization req) = VStr token -> token <> "" ->
  accepted (now e) token decoded ->
  lookup "password" (body req) = VStr pw ->
  updatePassword e req w
  = if negb (truthy (VStr pw)) || (Z.of_nat (String.length pw) <? 6)
    then (inr (failed 400 "Password must be at least 6 characters"), w)
    else (inr (succeeded "message" (VStr "Password updated successfully")),
          mkWorld
            (update_first (Claims.id decoded)
               (with_passwordHash (bcrypt_hash_string pw (salt e))) (users w))
            (preferences w) (recipes w)
            (calls w ++ [GenSalt 10; Hash (VStr pw) (salt e)])).
Proof.
  intros Htoken Hne Hacc Hpw. unfold updatePassword. rewrite Htoken, Hpw.
  apply truthy_VStr in Hne. rewrite Hne. run_handler.
  rewrite (jwt_verify_accepted e w Hacc). simpl.
  destruct (negb (negb (pw =? "")%string) || (Z.of_nat (String.length pw) <? 6));
    [reflexivity | ].
  unfold User_findByIdAndUpdate_passwordHash. run_handler.
  now rewrite <- app_assoc.
Qed.

(** [updatePassword] for a token that does not verify. *)
Lemma updatePassword_token_rejected (e : env) (req : request) (w : world)
  (token : string) :
  bearer_token (authorization req) = VStr token -> token <> "" ->
  rejected (now e) token ->
  updatePassword e req w = (inr (failed 500 "Server error updating password"), w).
Proof.
  intros Htoken Hne Hrej. unfold updatePassword. rewrite Htoken.
  apply truthy_VStr in Hne. rewrite Hne.
  destruct (jwt_verify_rejected e w Hrej) as [err Herr].
  run_handler. now rewrite Herr.
Qed.

(** X9: the token answered by a successful signup authenticates
    [/api/update-password] for the user created by that signup at every clock
    strictly less than 7 days (604800 seconds) after the signup, and from
    that second on it is refused, with the 500 of the route's [catch]. *)
Theorem signup_token_lifetime (e1 e2 : env) (req1 req2 : request) (w1 w2 : world)
  (token pw : string) :
  fst (signup e1 req1 w1) = inr (succeeded "token" (VStr token)) ->
  bearer_token (authorization req2) = VStr token -> token <> "" ->
  lookup "password" (body req2) = VStr pw -> (6 <= String.length pw)%nat ->
  (now e2 / 1000 < now e1 / 1000 + 7 * 24 * 60 * 60 ->
   updatePassword e2 req2 w2
   = (inr (succeeded "message" (VStr "Password updated successfully")),
      mkWorld
        (update_first (fresh_id e1)
           (with_passwordHash (bcrypt_hash_string pw (salt e2))) (users w2))
        (preferences w2) (recipes w2)
        (calls w2 ++ [GenSalt 10; Hash (VStr pw) (salt e2)])))
  /\
  (now e1 / 1000 + 7 * 24 * 60 * 60 <= now e2 / 1000 ->
   updatePassword e2 req2 w2
   = (inr (failed 500 "Server error updating password"), w2)).
Proof.
  intros Hsignup Htoken Hne Hpw Hlong.
  apply signup_token_inversion in Hsignup. subst token.
  split.
  - intros Hlive.
    rewrite (updatePassword_run e2 req2 w2 Htoken Hne
               (decoded := claims_at e1 (fresh_id e1))
               (conj (jwt_decode_encode _) Hlive) Hpw).
    assert (Hge : (Z.of_nat (String.length pw) <? 6) = false) by (apply Z.ltb_ge; lia).
    assert (Htruthy : truthy (VStr pw) = true)
      by (apply truthy_VStr; intros ->; simpl in Hlong; lia).
    now rewrite Hge, Htruthy.
  - intros Hdead.
    apply (updatePassword_token_rejected e2 req2 w2 Htoken Hne).
    right. exists (claims_at e1 (fresh_id e1)).
    split; [apply jwt_decode_encode | exact Hdead].
Qed.

(** X10: [/api/update-password] answers 401 only when no token can be read
    from the [Authorization] header; a token that is presented but does not
    verify (malformed, wrongly signed or expired) is answered with 500.  In
    both cases the world is unchanged: no hash is stored and bcrypt is not
    called. *)
Theorem updatePassword_unauthenticated (e : env) (req : request) (w : world) :
  (truthy (bearer_token (authorization req)) = false ->
   updatePassword e req w = (inr (failed 401 "Unauthorized"), w))
  /\
  (forall token,
      bearer_token (authorization req) = VStr token ->
      token <> "" ->
      rejected (now e) token ->
      updatePassword e req w
      = (inr (failed 500 "Server error updating password"), w)).
Proof.
  split.
  - intros Hfalsy. unfold updatePassword. run_handler. now rewrite Hfalsy.
  - intros token. apply updatePassword_token_rejected.
Qed.

End Tokens.

(** ** Reading the token from the header *)

Section Headers.

Context {P : Platform}.

Lemma split_spaceless (s : string) : spaceless s = true -> split " " s = [s].
Proof.
  induction s as [ | c s IH]; simpl; [reflexivity | ].
  intros Hs. apply andb_true_iff in Hs. destruct Hs as [Hc Hs].
  apply negb_true_iff in Hc. rewrite Hc. now rewrite (IH Hs).
Qed.

Lemma split_at_first_space (a b : string) :
  spaceless a = true -> split " " (a ++ String " " b) = a :: split " " b.
Proof.
  induction a as [ | c a IH]; simpl; [reflexivity | ].
  intros Ha. apply andb_true_iff in Ha. destruct Ha as [Hc Ha].
  apply negb_true_iff in Hc. rewrite Hc. now rewrite (IH Ha).
Qed.

(** X11: the scheme of the [Authorization] header is never looked at: for
    any two words without spaces, the header made of the first, a space and
    the second yields the second word as the token, whether the first is
    "Bearer" or not.  A header without any space, such as a bare token,
    yields no token, and both profile routes answer it with 401 and leave the
    world unchanged. *)
Theorem bearer_token_ignores_scheme (scheme token : string) :
  spaceless scheme = true -> spaceless token = true ->
  bearer_token (Some (scheme ++ " " ++ token)) = VStr token
  /\ bearer_token (Some token) = VUndefined
  /\ forall (e : env) (body : list (string * value)) (w : world),
      updateEmail e (mkRequest (Some token) body) w
      = (inr (failed 401 "Unauthorized"), w)
      /\ updatePassword e (mkRequest (Some token) body) w
         = (inr (failed 401 "Unauthorized"), w).
Proof.
  intros Hscheme Htoken.
  assert (Hbare : bearer_token (Some token) = VUndefined)
    by (unfold bearer_token; now rewrite split_spaceless).
  split; [ | split; [exact Hbare | ]].
  - unfold bearer_token.
    change (scheme ++ " " ++ token) with (scheme ++ String " " token).
    rewrite split_at_first_space by assumption.
    now rewrite split_spaceless.
  - intros e body w. unfold updateEmail, updatePassword. simpl authorization.
    rewrite Hbare. split; reflexivity.
Qed.

End Headers.

(** ** More of recipe generation *)

Section Recipes.

Context {P : Platform}.


(** X13: when the endpoint cannot be reached or its answer is no JSON (the
    call throws), and when its answer is the JSON value [null], the prompt has
    been posted but no recipe is stored, and [/api/recipe] answers 500 with
    the message of the error in the field [error]. *)
Theorem recipe_upstream_failure (e : env) (req : request) (w : world)
  (elems : list value) :
  lookup "ingredients" (body req) = VArr elems ->
  let prompt := build_prompt (join ", " elems) (latest (preferences w)) in
  let posted := mkWorld (users w) (preferences w) (recipes w)
                  (calls w ++ [Fetch endpoint "gpt-4o-mini" prompt]) in
  (forall err, api e prompt = inl err ->
               recipe e req w = (inr (recipe_error err), posted))
  /\ (api e prompt = inr VNull ->
      recipe e req w = (inr (recipe_error TypeError), posted)).
Proof.
  intros Hing prompt posted. split.
  - intros err Hapi. rewrite (recipe_array e req w Hing). cbv zeta.
    fold prompt. now rewrite Hapi.
  - intros Hapi. rewrite (recipe_array e req w Hing). cbv zeta.
    fold prompt. now rewrite Hapi.
Qed.

(** X14: only the first content block of the first output item is read.
    When the endpoint answers an object whose [output] is an array starting
    with an object whose [content] is an array starting with an object whose
    [text] is the string [t], whatever follows in either array and whatever
    other fields there are, [/api/recipe] answers and stores [t]; but an empty
    [t] is replaced by "No recipe generated.". *)
Theorem recipe_reads_first_block (e : env) (req : request) (w : world)
  (l : list string) (top item block : list (string * value))
  (items blocks : list value) (t : string) :
  lookup "ingredients" (body req) = VArr (map VStr l) ->
  api e (build_prompt (join ", " (map VStr l)) (latest (preferences w)))
  = inr (VObj top) ->
  lookup "output" top = VArr (VObj item :: items) ->
  lookup "content" item = VArr (VObj block :: blocks) ->
  lookup "text" block = VStr t ->
  let stored := if (t =? "")%string then "No recipe generated." else t in
  recipe e req w
  = (inr (succeeded "recipe" (VStr stored)),
     mkWorld (users w) (preferences w)
       (recipes w ++ [Recipe.mk (fresh_id e) l stored (now e)])
       (calls w ++ [Fetch endpoint "gpt-4o-mini"
                      (build_prompt (join ", " (map VStr l)) (latest (preferences w)))])).
Proof.
  intros Hing Hapi Houtput Hcontent Htext stored.
  rewrite (recipe_array e req w Hing). cbv zeta. rewrite Hapi.
  unfold nested_text, opt_chain. simpl. rewrite Houtput. simpl.
  rewrite Hcontent. simpl. rewrite Htext. simpl.
  rewrite cast_Strings_VArr. unfold or_else, no_recipe, stored. simpl.
  destruct (t =? "")%string; simpl; now rewrite cast_String_VStr.
Qed.

End Recipes.

(** ** Preferences and the prompt *)

Section Prompts.

Context {P : Platform}.

Lemma Contains_line (label x rest : string) :
  Contains (label ++ x ++ nl) (label ++ x ++ nl ++ rest).
Proof.
  exists "", rest. simpl. now rewrite !append_assoc.
Qed.

(** X15: the preference document that [/api/recipe] reads is a stored one
    whose [createdAt] no stored document exceeds; it reads none only when the
    collection is empty. *)
Theorem latest_is_newest (ps : list UserPreference.t) :
  (latest ps = None <-> ps = [])
  /\ forall p, latest ps = Some p ->
               In p ps
               /\ forall q, In q ps ->
                            UserPreference.createdAt q <= UserPreference.createdAt p.
Proof.
  induction ps as [ | a ps [IHnone IHsome]]; simpl.
  - split; [tauto | discriminate].
  - split.
    + split; [ | discriminate].
      destruct (latest ps) as [q | ]; [ | discriminate].
      destruct (UserPreference.createdAt a <? UserPreference.createdAt q); discriminate.
    + intros p Hp. destruct (latest ps) as [q | ] eqn:Hlatest.
      * destruct (IHsome q eq_refl) as [Hin Hmax].
        destruct (UserPreference.createdAt a <? UserPreference.createdAt q) eqn:Hlt;
          injection Hp as <-.
        -- apply Z.ltb_lt in Hlt. split; [now right | ].
           intros r [<- | Hr]; [lia | now apply Hmax].
        -- apply Z.ltb_ge in Hlt. split; [now left | ].
           intros r [<- | Hr]; [lia | ]. specialize (Hmax r Hr). lia.
      * injection Hp as <-. split; [now left | ].
        assert (Hnil : ps = []) by now apply IHnone. subst ps.
        intros r [<- | []]. lia.
Qed.

(** X16: preferences saved are the preferences used.  After a submission of
    string lists and safe integers at a clock later than every stored
    preference document, on a runtime that prints safe integers in decimal,
    the prompt of the next recipe request carries the submitted values: the
    lists joined by ", " (or the placeholder when that text is empty), the
    numbers in decimal (or "flexible" for zero) and the JSON of [mealTimes]
    as the store kept it (or of [{}] when what it kept is falsy). *)
Theorem preferences_reach_prompt (e1 e2 : env) (req1 req2 : request) (w : world)
  (ds qs : list string) (b c : Z) (elems : list value) :
  (forall n, Z.abs n < 2 ^ 53 -> Number_toString n = dec n) ->
  Z.abs b < 2 ^ 53 -> Z.abs c < 2 ^ 53 ->
  lookup "dietary" (body req1) = VArr (map VStr ds) ->
  lookup "equipment" (body req1) = VArr (map VStr qs) ->
  lookup "budget" (body req1) = VNum b ->
  lookup "cookingHours" (body req1) = VNum c ->
  (forall q, In q (preferences w) -> UserPreference.createdAt q < now e1) ->
  lookup "ingredients" (body req2) = VArr elems ->
  exists prompt,
    calls (snd (recipe e2 req2 (snd (savePreferences e1 req1 w))))
    = (calls w ++ [Fetch endpoint "gpt-4o-mini" prompt])%list
    /\ Contains ("- Dietary: "
                 ++ (if (String.concat ", " ds =? "")%string then "None"
                     else String.concat ", " ds) ++ nl) prompt
    /\ Contains ("- Equipment available: "
                 ++ (if (String.concat ", " qs =? "")%string then "Any"
                     else String.concat ", " qs) ++ nl) prompt
    /\ Contains ("- Weekly budget: $"
                 ++ (if b =? 0 then "flexible" else dec b) ++ nl) prompt
    /\ Contains ("- Cooking hours per week: "
                 ++ (if c =? 0 then "flexible" else dec c) ++ nl) prompt
    /\ Contains ("- Meal times: "
                 ++ JSON_stringify
                      (or_else (store_Mixed (lookup "mealTimes" (body req1))) (VObj []))
                 ++ nl) prompt.
Proof.
  intros Hprint Hb_safe Hc_safe Hds Hqs Hb Hc Hold Hing.
  rewrite (savePreferences_stores e1 req1 w ds qs Hds Hqs Hb Hc). simpl snd.
  set (p := UserPreference.mk (fresh_id e1) ds qs (Some b) (Some c)
              (store_Mixed (lookup "mealTimes" (body req1))) (now e1)).
  exists (build_prompt (join ", " elems) (Some p)).
  split.
  - rewrite (recipe_posts_prompt e2 req2 _ Hing). simpl.
    now rewrite (latest_newest (preferences w) p Hold).
  - unfold build_prompt.
    assert (Hd : dietary_text (Some p)
                 = if (String.concat ", " ds =? "")%string then "None"
                   else String.concat ", " ds)
      by (unfold dietary_text, or_else; simpl;
          now destruct (String.concat ", " ds =? "")%string).
    assert (Hq : equipment_text (Some p)
                 = if (String.concat ", " qs =? "")%string then "Any"
                   else String.concat ", " qs)
      by (unfold equipment_text, or_else; simpl;
          now destruct (String.concat ", " qs =? "")%string).
    assert (Hbt : budget_text (Some p) = if b =? 0 then "flexible" else dec b)
      by (unfold budget_text, or_else; simpl; destruct (b =? 0); simpl;
          [reflexivity | now apply Hprint]).
    assert (Hct : cookingHours_text (Some p) = if c =? 0 then "flexible" else dec c)
      by (unfold cookingHours_text, or_else; simpl; destruct (c =? 0); simpl;
          [reflexivity | now apply Hprint]).
    rewrite Hd, Hq, Hbt, Hct. unfold mealTimes_text. simpl opt_doc.
    repeat split; do 7 apply Contains_skip.
    + apply Contains_line.
    + do 3 apply Contains_skip. apply Contains_line.
    + do 6 apply Contains_skip. apply Contains_line.
    + do 9 apply Contains_skip. apply Contains_line.
    + do 12 apply Contains_skip. apply Contains_line.
Qed.

(** X17: a submission that passes the guard of [/api/preferences] but
    holds a value that the schema cast of [dietary], [equipment], [budget] or
    [cookingHours] rejects is answered 500, not 400, and nothing is stored.
    When all four casts succeed the route answers 200 and the document
    stored holds the cast values, and [mealTimes] as the store keeps it. *)
Theorem savePreferences_outcomes (e : env) (req : request) (w : world) :
  let d := cast_Strings (lookup "dietary" (body req)) in
  let q := cast_Strings (lookup "equipment" (body req)) in
  let b := cast_Number (lookup "budget" (body req)) in
  let c := cast_Number (lookup "cookingHours" (body req)) in
  invalid_preferences req = false ->
  (d = None \/ q = None \/ b = None \/ c = None ->
   savePreferences e req w
   = (inr (failed 500 "Server error saving preferences"), w))
  /\
  (forall d' q' b' c',
      d = Some d' -> q = Some q' -> b = Some b' -> c = Some c' ->
      savePreferences e req w
      = (inr (succeeded "message" (VStr "Preferences saved!")),
         set_preferences
           (preferences w
            ++ [UserPreference.mk (fresh_id e) d' q' b' c'
                  (store_Mixed (lookup "mealTimes" (body req))) (now e)]) w)).
Proof.
  intros d q b c Hguard. unfold savePreferences. fold (invalid_preferences req).
  rewrite Hguard. unfold UserPreference_save. fold d q b c. split.
  - intros Hnone.
    destruct d as [d' | ], q as [q' | ], b as [b' | ], c as [c' | ];
      try reflexivity.
    destruct Hnone as [Habs | [Habs | [Habs | Habs]]]; discriminate.
  - intros d' q' b' c' -> -> -> ->. reflexivity.
Qed.

End Prompts.

(** ** Every request is answered *)

(** Every value [m] returns satisfies [Q]. *)
Definition yields {A} (Q : A -> Prop) (m : M A) : Prop :=
  forall w a, fst (m w) = inr a -> Q a.

(** The status codes of the account, preference and recipe routes, and those
    of the two routes that read a token. *)
Definition open_statuses : list Z := [200; 400; 500].

Definition token_statuses : list Z := [200; 400; 401; 500].

Section Answers.

Context {P : Platform}.

Lemma yields_ret {A} (Q : A -> Prop) (a : A) : Q a -> yields Q (ret a).
Proof. intros Ha w b Hb. injection Hb as <-. exact Ha. Qed.

Lemma yields_throw {A} (Q : A -> Prop) (err : exn) : yields Q (@throw A err).
Proof. intros w a Ha. discriminate. Qed.

Lemma yields_bind {A B} (Q : B -> Prop) (m : M A) (k : A -> M B) :
  (forall a, yields Q (k a)) -> yields Q (bind m k).
Proof.
  intros Hk w b. unfold bind.
  destruct (m w) as [[err | a] w']; simpl; [discriminate | apply Hk].
Qed.

Lemma answers_try_catch (Q : response -> Prop) (m : M response)
  (handler : exn -> M response) (w : world) :
  yields Q m ->
  (forall err w', exists resp, handler err w' = (inr resp, w') /\ Q resp) ->
  exists resp, fst (try_catch m handler w) = inr resp /\ Q resp.
Proof.
  intros Hm Hh. unfold try_catch.
  destruct (m w) as [[err | resp] w'] eqn:Hrun.
  - destruct (Hh err w') as (resp & Hresp & HQ). exists resp. now rewrite Hresp.
  - exists resp. split; [reflexivity | ]. apply (Hm w). now rewrite Hrun.
Qed.

Ltac yields_auto :=
  unfold failure, respond; cbv zeta;
  repeat first
    [ apply yields_bind; intro
    | apply yields_throw
    | apply yields_ret; simpl; tauto
    | match goal with
      | |- yields _ (if ?b then _ else _) => destruct b
      | |- yields _ (match ?x with _ => _ end) => destruct x
      end ].

Ltac answers_auto :=
  apply answers_try_catch;
  [ yields_auto
  | intros err w'; eexists; split; [reflexivity | simpl; tauto] ].

(** In the model every route returns a response.  (Whether the awaited calls
    complete is not a matter of the model.) *)
Lemma routes_respond (path : string) (h : env -> request -> M response)
  (e : env) (req : request) (w : world) :
  In (path, h) routes ->
  exists resp,
    fst (h e req w) = inr resp
    /\ In (status resp)
         (if (path =? "/api/update-email")%string
             || (path =? "/api/update-password")%string
          then token_statuses else open_statuses).
Proof.
  intros Hroute. simpl in Hroute.
  destruct Hroute as [Heq | [Heq | [Heq | [Heq | [Heq | [Heq | []]]]]]];
    injection Heq as <- <-; simpl.
  - unfold signup. answers_auto.
  - unfold login. answers_auto.
  - unfold savePreferences. answers_auto.
  - unfold recipe. answers_auto.
  - unfold updateEmail. answers_auto.
  - unfold updatePassword. answers_auto.
Qed.

(** X18: no error thrown inside a POST route escapes it: whatever the
    request holds and whatever a library call or the endpoint throws, the
    error ends in the route's [catch] and not in the caller of the handler.
    And every response a route gives has status 200, 400 or 500, or, on the
    two routes that read a token, 200, 400, 401 or 500. *)
Theorem routes_never_throw (path : string) (h : env -> request -> M response)
  (e : env) (req : request) (w : world) :
  In (path, h) routes ->
  (forall err, fst (h e req w) <> inl err)
  /\ (forall resp,
         fst (h e req w) = inr resp ->
         In (status resp)
           (if (path =? "/api/update-email")%string
               || (path =? "/api/update-password")%string
            then token_statuses else open_statuses)).
Proof.
  intros Hroute.
  destruct (routes_respond e req w Hroute) as (resp & Hresp & Hstatus).
  rewrite Hresp. split.
  - intros err. discriminate.
  - intros resp' Heq. injection Heq as <-. exact Hstatus.
Qed.

End Answers.

(** ** Edge cases of the profile routes and the CORS policy *)

Section Edges.

Context {P : Platform}.

(** X19: [/api/update-email] checks the new email with [email.includes],
    which only strings and arrays have: with a token that verifies, a new
    email that is a non-zero number, [true] or an object makes the route throw
    into its [catch] and answer 500, not the 400 of an invalid email; the
    world is unchanged. *)
Theorem updateEmail_email_without_includes (e : env) (req : request) (w : world)
  (token : string) (decoded : Claims.t) :
  bearer_token (authorization req) = VStr token -> token <> "" ->
  accepted (now e) token decoded ->
  truthy (lookup "email" (body req)) = true ->
  (forall s, lookup "email" (body req) <> VStr s) ->
  Array_isArray (lookup "email" (body req)) = false ->
  updateEmail e req w = (inr (failed 500 "Server error updating email"), w).
Proof.
  intros Htoken Hne Hacc Htruthy Hnostring Hnoarray.
  unfold updateEmail. rewrite Htoken.
  apply truthy_VStr in Hne. rewrite Hne. run_handler.
  rewrite (jwt_verify_accepted e w Hacc). simpl. rewrite Htruthy. simpl.
  destruct (lookup "email" (body req)) as [ | | b | n | s | elems | props];
    try discriminate; try reflexivity.
  now destruct (Hnostring s).
Qed.

(** X20: the CORS policy allows a request exactly when it carries no
    [Origin] header, an empty one, or one that is, character for character,
    one of the three allowed origins; every other origin is refused with the
    error "Not allowed by CORS". *)
Theorem cors_origin_spec (origin : option string) :
  (cors_origin origin = inr true
   <-> origin = None \/ origin = Some ""
       \/ exists o, origin = Some o /\ In o allowedOrigins)
  /\ (cors_origin origin <> inr true ->
      cors_origin origin = inl "Not allowed by CORS").
Proof.
  destruct origin as [o | ]; simpl; [ | split; [tauto | congruence]].
  destruct (String.eqb_spec o "") as [-> | Hne]; simpl.
  { split; [ | congruence]. split; auto. }
  destruct (String.eqb_spec o "https://ziplan.vercel.app") as [-> | H1]; simpl.
  { split; [ | congruence]. split; [intros _ | reflexivity].
    right. right. eexists. split; [reflexivity | simpl; auto]. }
  destruct (String.eqb_spec o "http://localhost:19006") as [-> | H2]; simpl.
  { split; [ | congruence]. split; [intros _ | reflexivity].
    right. right. eexists. split; [reflexivity | simpl; auto]. }
  destruct (String.eqb_spec o "http://localhost:3000") as [-> | H3]; simpl.
  { split; [ | congruence]. split; [intros _ | reflexivity].
    right. right. eexists. split; [reflexivity | simpl; auto]. }
  split; [ | reflexivity]. split; [discriminate | ].
  intros [Habs | [Habs | (o' & Ho & Hin)]]; try congruence.
  injection Ho as <-. simpl in Hin. intuition congruence.
Qed.

(** X21: a recipe is stored exactly by the requests that are answered 200:
    such a request appends one Recipe document, and every request answered
    otherwise leaves the recipe collection as it was. *)
Theorem recipe_stores_iff_success (e : env) (req : request) (w : world) :
  exists resp,
    fst (recipe e req w) = inr resp
    /\ ((status resp = 200
         /\ exists r, recipes (snd (recipe e req w)) = (recipes w ++ [r])%list)
        \/ (status resp <> 200 /\ recipes (snd (recipe e req w)) = recipes w)).
Proof.
  destruct (lookup "ingredients" (body req)) as [ | | b | n | s | elems | props] eqn:Hing.
  6: {
    rewrite (recipe_array e req w Hing). cbv zeta.
    destruct (api e _) as [err | data];
      [eexists; split; [reflexivity | right; split; [discriminate | reflexivity]] | ].
    destruct (nested_text data) as [err | text];
      [eexists; split; [reflexivity | right; split; [discriminate | reflexivity]] | ].
    destruct (cast_Strings _);
      [ | eexists; split; [reflexivity | right; split; [discriminate | reflexivity]]].
    destruct (cast_String _);
      [ | eexists; split; [reflexivity | right; split; [discriminate | reflexivity]]].
    eexists. split; [reflexivity | left]. split; [reflexivity | ].
    eexists. reflexivity. }
  all: assert (Hrun : recipe e req w
                      = (inr (failed 400 "Ingredients must be an array"), w))
         by (unfold recipe; rewrite Hing; simpl;
             repeat match goal with
                    | |- context [negb ?c || true] => rewrite (orb_true_r (negb c))
                    end; reflexivity).
  all: rewrite Hrun; eexists; split;
    [reflexivity | right; split; [discriminate | reflexivity]].
Qed.

End Edges.

(** ** Profile updates, then login *)

Section Relogin.

Context {P : Platform}.

Lemma id_in_ids (u : User.t) (us : list User.t) : In u us -> In (User._id u) (map User._id us).
Proof. apply in_map. Qed.

Lemma find_after_rehash (uid : Z) (em h : string) (us : list User.t) (u : User.t) :
  NoDup (map User._id us) -> NoDup (map User.email us) ->
  In u us -> User._id u = uid -> User.email u = em ->
  find (fun v => (User.email v =? em)%string) (update_first uid (with_passwordHash h) us)
  = Some (with_passwordHash h u).
Proof.
  induction us as [ | v us IH]; simpl; intros Hids Hemails Hin Hid Hem; [tauto | ].
  inversion Hids as [ | ? ? Hv_id Hids']; subst.
  inversion Hemails as [ | ? ? Hv_em Hemails']; subst.
  destruct Hin as [-> | Hin].
  - rewrite Z.eqb_refl. simpl. now rewrite String.eqb_refl.
  - destruct (User._id v =? User._id u) eqn:Hsame.
    + apply Z.eqb_eq in Hsame. exfalso. apply Hv_id. rewrite Hsame. now apply id_in_ids.
    + simpl. destruct (String.eqb_spec (User.email v) (User.email u)) as [Heq | _].
      * exfalso. apply Hv_em. rewrite Heq. now apply in_map.
      * now apply IH.
Qed.

Lemma find_after_new_email (uid : Z) (em : string) (us : list User.t) (u : User.t) :
  NoDup (map User._id us) ->
  In u us -> User._id u = uid ->
  (forall v, In v us -> User.email v <> em) ->
  find (fun v => (User.email v =? em)%string) (update_first uid (with_email em) us)
  = Some (with_email em u).
Proof.
  induction us as [ | v us IH]; simpl; intros Hids Hin Hid Hfree; [tauto | ].
  inversion Hids as [ | ? ? Hv_id Hids']; subst.
  destruct Hin as [-> | Hin].
  - rewrite Z.eqb_refl. simpl. now rewrite String.eqb_refl.
  - destruct (User._id v =? User._id u) eqn:Hsame.
    + apply Z.eqb_eq in Hsame. exfalso. apply Hv_id. rewrite Hsame. now apply id_in_ids.
    + simpl. destruct (String.eqb_spec (User.email v) em) as [Heq | _].
      * exfalso. apply (Hfree v); [now left | assumption].
      * apply IH; try assumption; try reflexivity.
        intros x Hx. apply Hfree. now right.
Qed.

Lemma old_email_gone (uid : Z) (old em : string) (us : list User.t) (u : User.t) :
  NoDup (map User._id us) -> NoDup (map User.email us) ->
  In u us -> User._id u = uid -> User.email u = old -> em <> old ->
  find (fun v => (User.email v =? old)%string) (update_first uid (with_email em) us)
  = None.
Proof.
  induction us as [ | v us IH]; simpl; intros Hids Hemails Hin Hid Hold Hnew; [tauto | ].
  inversion Hids as [ | ? ? Hv_id Hids']; subst.
  inversion Hemails as [ | ? ? Hv_em Hemails']; subst.
  destruct Hin as [-> | Hin].
  - rewrite Z.eqb_refl. simpl.
    destruct (String.eqb_spec em (User.email u)) as [Heq | _]; [now destruct Hnew | ].
    apply find_absent. intros x Hx. apply String.eqb_neq. intros Heq.
    apply Hv_em. rewrite <- Heq. now apply in_map.
  - destruct (User._id v =? User._id u) eqn:Hsame.
    + apply Z.eqb_eq in Hsame. exfalso. apply Hv_id. rewrite Hsame. now apply id_in_ids.
    + simpl. destruct (String.eqb_spec (User.email v) (User.email u)) as [Heq | _].
      * exfalso. apply Hv_em. rewrite Heq. now apply in_map.
      * now apply IH.
Qed.

(** X22: the new password logs in.  With pairwise distinct [_id]s and emails
    and a bcrypt whose comparison accepts a password against its own hash,
    after the user named by a verified token has changed their password to
    one of 6 characters or more, a login with that user's email and the new
    password answers 200 with a token for that user. *)
Theorem updatePassword_then_login (e1 e2 : env) (req1 req2 : request) (w : world)
  (token : string) (decoded : Claims.t) (u : User.t) (em pw : string) :
  (forall p s, bcrypt_compare_string p (bcrypt_hash_string p s) = true) ->
  NoDup (map User._id (users w)) -> NoDup (map User.email (users w)) ->
  In u (users w) -> User._id u = Claims.id decoded -> User.email u = em -> em <> "" ->
  bearer_token (authorization req1) = VStr token -> token <> "" ->
  accepted (now e1) token decoded ->
  lookup "password" (body req1) = VStr pw -> (6 <= String.length pw)%nat ->
  lookup "email" (body req2) = VStr em -> lookup "password" (body req2) = VStr pw ->
  exists answer,
    fst (login e2 req2 (snd (updatePassword e1 req1 w)))
    = inr (succeeded "token" (VStr answer))
    /\ jwt_decode answer
       = Some (Claims.mk (User._id u) (now e2 / 1000)
                 (now e2 / 1000 + 7 * 24 * 60 * 60)).
Proof.
  intros Hcheck Hids Hemails Hin Hid Hem Hem_ne Htoken Hne Hacc Hpw Hlong Hem2 Hpw2.
  exists (jwt_encode (claims_at e2 (User._id u))).
  split; [ | apply jwt_decode_encode].
  assert (Hpw_ne : pw <> "") by (intros ->; simpl in Hlong; lia).
  rewrite (updatePassword_run e1 req1 w Htoken Hne Hacc Hpw).
  assert (Hge : (Z.of_nat (String.length pw) <? 6) = false) by (apply Z.ltb_ge; lia).
  apply truthy_VStr in Hpw_ne as Htruthy. rewrite Hge, Htruthy. simpl snd.
  rewrite (login_run e2 req2 _ Hem2 Hpw2 Hem_ne Hpw_ne). simpl users.
  rewrite find_after_rehash with (u := u) by assumption.
  simpl. now rewrite Hcheck.
Qed.

(** X23: the new email logs in and the old one no longer does.  With
    pairwise distinct [_id]s and emails, after the user named by a verified
    token has changed their email to one with an "@" that no stored user
    had, a login with the new email and a password that bcrypt matches
    against that user's hash answers 200 with a token for that user, and a
    login with the old email is answered 400 "Invalid credentials" without
    any bcrypt comparison. *)
Theorem updateEmail_then_login (e1 e2 : env) (req1 req2 req3 : request) (w : world)
  (token : string) (decoded : Claims.t) (u : User.t) (old em pw : string) :
  NoDup (map User._id (users w)) -> NoDup (map User.email (users w)) ->
  In u (users w) -> User._id u = Claims.id decoded -> User.email u = old -> old <> "" ->
  bearer_token (authorization req1) = VStr token -> token <> "" ->
  accepted (now e1) token decoded ->
  lookup "email" (body req1) = VStr em -> str_includes "@" em = true ->
  (forall v, In v (users w) -> User.email v <> em) ->
  lookup "email" (body req2) = VStr em -> lookup "password" (body req2) = VStr pw ->
  pw <> "" -> bcrypt_compare_string pw (User.passwordHash u) = true ->
  lookup "email" (body req3) = VStr old -> lookup "password" (body req3) = VStr pw ->
  let w1 := snd (updateEmail e1 req1 w) in
  fst (login e2 req2 w1)
  = inr (succeeded "token" (VStr (jwt_encode (claims_at e2 (User._id u)))))
  /\ login e2 req3 w1 = (inr (failed 400 "Invalid credentials"), w1).
Proof.
  intros Hids Hemails Hin Hid Hold Hold_ne Htoken Hne Hacc Hem Hat Hfree
    Hem2 Hpw2 Hpw_ne Hmatch Hem3 Hpw3 w1.
  assert (Hem_ne : em <> "") by (intros ->; discriminate).
  assert (Hdiff : em <> old) by (intros ->; now apply (Hfree u)).
  assert (Hw1 : w1 = set_users (update_first (Claims.id decoded) (with_email em) (users w)) w).
  { unfold w1. rewrite (updateEmail_run e1 req1 w Htoken Hne Hacc Hem).
    rewrite Hat. simpl.
    rewrite find_absent; [reflexivity | ].
    intros v Hv. apply String.eqb_neq. now apply Hfree. }
  rewrite Hw1. split.
  - rewrite (login_run e2 req2 _ Hem2 Hpw2 Hem_ne Hpw_ne). simpl users.
    rewrite find_after_new_email with (u := u) by assumption.
    simpl. now rewrite Hmatch.
  - rewrite (login_run e2 req3 _ Hem3 Hpw3 Hold_ne Hpw_ne). simpl users.
    now rewrite old_email_gone with (u := u) by assumption.
Qed.

End Relogin.

(** ** The further properties on concrete requests *)

Lemma ends_with_append (suffix a : string) : Ref.ends_with suffix (a ++ suffix) = true.
Proof.
  induction a as [ | c a IH].
  - destruct suffix; simpl; [reflexivity | ].
    now rewrite Ascii.eqb_refl, String.eqb_refl.
  - change (((String c (a ++ suffix) =? suffix)%string
             || Ref.ends_with suffix (a ++ suffix)) = true).
    rewrite IH. apply orb_true_r.
Qed.

Lemma ref_compare_hash (p s : string) :
  Ref.compare_string p (Ref.hash_string p s) = true.
Proof.
  unfold Ref.compare_string, Ref.hash_string.
  change ("$2a$10$" ++ s ++ "$" ++ p) with ("$2a$10$" ++ (s ++ "$" ++ p)).
  rewrite <- (append_assoc "$2a$10$" s ("$" ++ p)).
  apply ends_with_append.
Qed.

Lemma two_users_ids_distinct : NoDup (map User._id (users two_users)).
Proof.
  simpl. constructor; [simpl; intros [Habs | []]; discriminate | ].
  constructor; [simpl; tauto | constructor].
Qed.

Lemma two_users_emails_distinct : NoDup (map User.email (users two_users)).
Proof.
  simpl. constructor; [simpl; intros [Habs | []]; discriminate | ].
  constructor; [simpl; tauto | constructor].
Qed.

Definition carol_signup : request :=
  mkRequest None [("email", VStr "carol@example.com"); ("password", VStr "hunter22")].

Lemma routes_only_append_witness :
  grows two_users (snd (run (@recipe ref_platform) pancakes egg_flour two_users)).
Proof.
  apply (@routes_only_append ref_platform "/api/recipe" recipe (ref_env pancakes)
           egg_flour two_users).
  simpl. tauto.
Defined.

Lemma signup_keeps_accounts_wellformed_witness :
  NoDup (map User.email
           (users (snd (run (@signup ref_platform) pancakes carol_signup two_users)))).
Proof.
  apply (proj1 (@signup_keeps_accounts_wellformed ref_platform (ref_env pancakes)
                  carol_signup two_users)).
  exact two_users_emails_distinct.
Defined.

Lemma updateEmail_keeps_emails_distinct_witness :
  let req := mkRequest (bearer (token_for 1)) [("email", VStr "ann@new.example")] in
  NoDup (map User._id (users (snd (run (@updateEmail ref_platform) pancakes req two_users))))
  /\ NoDup (map User.email
              (users (snd (run (@updateEmail ref_platform) pancakes req two_users)))).
Proof.
  intros req.
  apply (@updateEmail_keeps_emails_distinct ref_platform (ref_env pancakes) req two_users).
  - exact two_users_ids_distinct.
  - exact two_users_emails_distinct.
Defined.

Lemma login_success_witness :
  let req := mkRequest None [("email", VStr "ann@example.com");
                             ("password", VStr "secret1")] in
  exists token,
    run (@login ref_platform) pancakes req two_users
    = (inr (succeeded "token" (VStr token)),
       mkWorld [ann; bob] [] [] [Compare (VStr "secret1") "$2a$10$salt$secret1"])
    /\ Ref.decode token = Some (Claims.mk 1 1700000000 (1700000000 + 7 * 24 * 60 * 60)).
Proof.
  intros req.
  apply (@login_success ref_platform (ref_env pancakes) req two_users
           "ann@example.com" "secret1" ann).
  - reflexivity.
  - reflexivity.
  - discriminate.
  - discriminate.
  - exact two_users_emails_distinct.
  - now left.
  - reflexivity.
  - reflexivity.
Defined.

Lemma signup_then_login_witness :
  exists token,
    fst (run (@login ref_platform) pancakes carol_signup
           (snd (run (@signup ref_platform) pancakes carol_signup two_users)))
    = inr (succeeded "token" (VStr token))
    /\ Ref.decode token = Some (Claims.mk 7 1700000000 (1700000000 + 7 * 24 * 60 * 60)).
Proof.
  apply (@signup_then_login ref_platform (ref_env pancakes) (ref_env pancakes)
           carol_signup carol_signup two_users "carol@example.com" "hunter22").
  - exact ref_compare_hash.
  - reflexivity.
  - reflexivity.
  - reflexivity.
  - reflexivity.
  - discriminate.
  - discriminate.
  - intros u [<- | [<- | []]]; discriminate.
Defined.

Lemma signup_twice_refused_witness :
  let after := snd (run (@signup ref_platform) pancakes carol_signup two_users) in
  run (@signup ref_platform) pancakes carol_signup after
  = (inr (failed 400 "Email already in use"), after).
Proof.
  intros after.
  apply (@signup_twice_refused ref_platform (ref_env pancakes) (ref_env pancakes)
           carol_signup carol_signup two_users "carol@example.com" "hunter22").
  - reflexivity.
  - reflexivity.
  - discriminate.
  - discriminate.
  - intros u [<- | [<- | []]]; discriminate.
  - reflexivity.
  - reflexivity.
Defined.

(** The clock of [ref_env] moved by [seconds]. *)
Definition later (seconds : Z) : env :=
  mkEnv (1700000000000 + seconds * 1000) 8 "pepper" (fun _ => pancakes).

Lemma signup_token_lifetime_witness :
  let token := Ref.encode (Claims.mk 7 1700000000 (1700000000 + 604800)) in
  let req := mkRequest (bearer token) [("password", VStr "abc123")] in
  @updatePassword ref_platform (later 604799) req two_users
  = (inr (succeeded "message" (VStr "Password updated successfully")),
     mkWorld [ann; bob] [] [] [GenSalt 10; Hash (VStr "abc123") "pepper"])
  /\ @updatePassword ref_platform (later 604800) req two_users
     = (inr (failed 500 "Server error updating password"), two_users).
Proof.
  intros token req. split.
  - apply (proj1 (@signup_token_lifetime ref_platform (ref_env pancakes) (later 604799)
                    carol_signup req two_users two_users token "abc123"
                    eq_refl eq_refl ltac:(discriminate) eq_refl
                    ltac:(simpl; lia))).
    vm_compute. reflexivity.
  - apply (proj2 (@signup_token_lifetime ref_platform (ref_env pancakes) (later 604800)
                    carol_signup req two_users two_users token "abc123"
                    eq_refl eq_refl ltac:(discriminate) eq_refl
                    ltac:(simpl; lia))).
    vm_compute. discriminate.
Defined.

Lemma updatePassword_unauthenticated_witness :
  let body := [("password", VStr "abc123")] in
  run (@updatePassword ref_platform) pancakes (mkRequest None body) two_users
  = (inr (failed 401 "Unauthorized"), two_users)
  /\ run (@updatePassword ref_platform) pancakes
       (mkRequest (Some "Bearer abc.def.ghi") body) two_users
     = (inr (failed 500 "Server error updating password"), two_users).
Proof.
  intros body. split.
  - apply (proj1 (@updatePassword_unauthenticated ref_platform (ref_env pancakes)
                    (mkRequest None body) two_users)).
    reflexivity.
  - apply (proj2 (@updatePassword_unauthenticated ref_platform (ref_env pancakes)
                    (mkRequest (Some "Bearer abc.def.ghi") body) two_users))
      with (token := "abc.def.ghi").
    + reflexivity.
    + discriminate.
    + left. reflexivity.
Defined.

Lemma bearer_token_ignores_scheme_witness :
  bearer_token (Some ("Basic" ++ " " ++ "abc.def.ghi")) = VStr "abc.def.ghi"
  /\ bearer_token (Some "abc.def.ghi") = VUndefined.
Proof.
  destruct (@bearer_token_ignores_scheme ref_platform "Basic" "abc.def.ghi"
              eq_refl eq_refl) as (Hscheme & Hbare & _).
  split; assumption.
Defined.


Lemma recipe_upstream_failure_witness :
  run (@recipe ref_platform) (inl (FetchError "getaddrinfo ENOTFOUND")) egg_flour two_users
  = (inr (mkResponse 500 [("success", VBool false); ("message", VStr "Server error");
                          ("error", VStr "getaddrinfo ENOTFOUND")]),
     mkWorld [ann; bob] [] []
       [Fetch endpoint "gpt-4o-mini" (@build_prompt ref_platform "egg, flour" None)]).
Proof.
  apply (proj1 (@recipe_upstream_failure ref_platform
                  (ref_env (inl (FetchError "getaddrinfo ENOTFOUND")))
                  egg_flour two_users [VStr "egg"; VStr "flour"] eq_refl)
           (FetchError "getaddrinfo ENOTFOUND")).
  reflexivity.
Defined.

(** An answer with two output items and two content blocks. *)
Definition two_blocks : exn + value :=
  inr (VObj [("id", VStr "resp_1");
             ("output",
              VArr [VObj [("type", VStr "message");
                          ("content", VArr [VObj [("text", VStr "Pancakes")];
                                            VObj [("text", VStr "Waffles")]])];
                    VObj [("content", VArr [VObj [("text", VStr "Crepes")]])]])]).

Lemma recipe_reads_first_block_witness :
  run (@recipe ref_platform) two_blocks egg_flour two_users
  = (inr (succeeded "recipe" (VStr "Pancakes")),
     mkWorld [ann; bob] []
       [Recipe.mk 7 ["egg"; "flour"] "Pancakes" 1700000000000]
       [Fetch endpoint "gpt-4o-mini" (@build_prompt ref_platform "egg, flour" None)]).
Proof.
  apply (@recipe_reads_first_block ref_platform (ref_env two_blocks) egg_flour two_users
           ["egg"; "flour"]
           [("id", VStr "resp_1");
            ("output",
             VArr [VObj [("type", VStr "message");
                         ("content", VArr [VObj [("text", VStr "Pancakes")];
                                           VObj [("text", VStr "Waffles")]])];
                   VObj [("content", VArr [VObj [("text", VStr "Crepes")]])]])]
           [("type", VStr "message");
            ("content", VArr [VObj [("text", VStr "Pancakes")];
                              VObj [("text", VStr "Waffles")]])]
           [("text", VStr "Pancakes")]
           [VObj [("content", VArr [VObj [("text", VStr "Crepes")]])]]
           [VObj [("text", VStr "Waffles")]]
           "Pancakes"); reflexivity.
Defined.

Definition older : UserPreference.t :=
  UserPreference.mk 3 ["vegan"] ["oven"] (Some 40) (Some 5) VUndefined 1600000000000.

Definition newer : UserPreference.t :=
  UserPreference.mk 4 [] ["wok"] (Some 0) (Some 2) VUndefined 1650000000000.

Lemma latest_is_newest_witness :
  In newer [older; newer]
  /\ forall q, In q [older; newer] ->
               UserPreference.createdAt q <= UserPreference.createdAt newer.
Proof.
  apply (proj2 (latest_is_newest [older; newer]) newer). reflexivity.
Defined.

Definition vegan_preferences : request :=
  mkRequest None [("dietary", VArr [VStr "vegan"; VStr "nut-free"]);
                  ("equipment", VArr [VStr "oven"]);
                  ("budget", VNum 40); ("cookingHours", VNum 0)].

Lemma preferences_reach_prompt_witness :
  exists prompt,
    calls (snd (run (@recipe ref_platform) pancakes egg_flour
                  (snd (run (@savePreferences ref_platform) pancakes vegan_preferences
                          two_users))))
    = [Fetch endpoint "gpt-4o-mini" prompt]
    /\ Contains ("- Dietary: vegan, nut-free" ++ nl) prompt
    /\ Contains ("- Equipment available: oven" ++ nl) prompt
    /\ Contains ("- Weekly budget: $40" ++ nl) prompt
    /\ Contains ("- Cooking hours per week: flexible" ++ nl) prompt
    /\ Contains ("- Meal times: {}" ++ nl) prompt.
Proof.
  apply (@preferences_reach_prompt ref_platform (ref_env pancakes) (ref_env pancakes)
           vegan_preferences egg_flour two_users
           ["vegan"; "nut-free"] ["oven"] 40 0 [VStr "egg"; VStr "flour"]);
    try reflexivity.
  intros q [].
Defined.

Lemma savePreferences_outcomes_witness :
  let req := mkRequest None [("dietary", VArr [VStr "vegan"]);
                             ("equipment", VArr [VStr "oven"]);
                             ("budget", VStr "a lot"); ("cookingHours", VNum 3)] in
  run (@savePreferences ref_platform) pancakes req two_users
  = (inr (failed 500 "Server error saving preferences"), two_users).
Proof.
  intros req.
  apply (proj1 (@savePreferences_outcomes ref_platform (ref_env pancakes) req two_users
                  eq_refl)).
  right. right. left. reflexivity.
Defined.

Lemma routes_never_throw_witness :
  let req := mkRequest None [("ingredients", VArr [VStr "egg"])] in
  (forall err,
      fst (run (@recipe ref_platform) (inl (FetchError "socket hang up")) req two_users)
      <> inl err)
  /\ (forall resp,
         fst (run (@recipe ref_platform) (inl (FetchError "socket hang up")) req two_users)
         = inr resp ->
         In (status resp) open_statuses).
Proof.
  intros req.
  apply (@routes_never_throw ref_platform "/api/recipe" recipe
           (ref_env (inl (FetchError "socket hang up"))) req two_users).
  simpl. tauto.
Defined.

Lemma updateEmail_email_without_includes_witness :
  run (@updateEmail ref_platform) pancakes
    (mkRequest (bearer (token_for 1)) [("email", VNum 5)]) two_users
  = (inr (failed 500 "Server error updating email"), two_users).
Proof.
  apply (@updateEmail_email_without_includes ref_platform (ref_env pancakes)
           (mkRequest (bearer (token_for 1)) [("email", VNum 5)]) two_users
           (token_for 1) (Claims.mk 1 1699999000 (1699999000 + 604800))).
  - reflexivity.
  - discriminate.
  - split; reflexivity.
  - reflexivity.
  - intros s. discriminate.
  - reflexivity.
Defined.

Lemma cors_origin_spec_witness :
  cors_origin (Some "http://localhost:3000") = inr true
  /\ cors_origin (Some "https://ziplan.vercel.app/") = inl "Not allowed by CORS".
Proof.
  split.
  - apply (proj1 (cors_origin_spec (Some "http://localhost:3000"))).
    right. right. eexists. split; [reflexivity | simpl; tauto].
  - apply (proj2 (cors_origin_spec (Some "https://ziplan.vercel.app/"))).
    discriminate.
Defined.

Lemma updatePassword_then_login_witness :
  let change := mkRequest (bearer (token_for 2)) [("password", VStr "abc123")] in
  let relogin := mkRequest None [("email", VStr "bob@example.com");
                                 ("password", VStr "abc123")] in
  exists answer,
    fst (run (@login ref_platform) pancakes relogin
           (snd (run (@updatePassword ref_platform) pancakes change two_users)))
    = inr (succeeded "token" (VStr answer))
    /\ Ref.decode answer = Some (Claims.mk 2 1700000000 (1700000000 + 7 * 24 * 60 * 60)).
Proof.
  intros change relogin.
  apply (@updatePassword_then_login ref_platform (ref_env pancakes) (ref_env pancakes)
           change relogin two_users (token_for 2)
           (Claims.mk 2 1699999000 (1699999000 + 604800)) bob
           "bob@example.com" "abc123").
  - exact ref_compare_hash.
  - exact two_users_ids_distinct.
  - exact two_users_emails_distinct.
  - right. now left.
  - reflexivity.
  - reflexivity.
  - discriminate.
  - reflexivity.
  - discriminate.
  - split; reflexivity.
  - reflexivity.
  - simpl. lia.
  - reflexivity.
  - reflexivity.
Defined.

Lemma updateEmail_then_login_witness :
  let change := mkRequest (bearer (token_for 1)) [("email", VStr "ann@new.example")] in
  let new_login := mkRequest None [("email", VStr "ann@new.example");
                                   ("password", VStr "secret1")] in
  let old_login := mkRequest None [("email", VStr "ann@example.com");
                                   ("password", VStr "secret1")] in
  let after := snd (run (@updateEmail ref_platform) pancakes change two_users) in
  fst (run (@login ref_platform) pancakes new_login after)
  = inr (succeeded "token"
           (VStr (Ref.encode (Claims.mk 1 1700000000 (1700000000 + 7 * 24 * 60 * 60)))))
  /\ run (@login ref_platform) pancakes old_login after
     = (inr (failed 400 "Invalid credentials"), after).
Proof.
  intros change new_login old_login after.
  apply (@updateEmail_then_login ref_platform (ref_env pancakes) (ref_env pancakes)
           change new_login old_login two_users (token_for 1)
           (Claims.mk 1 1699999000 (1699999000 + 604800)) ann
           "ann@example.com" "ann@new.example" "secret1").
  - exact two_users_ids_distinct.
  - exact two_users_emails_distinct.
  - now left.
  - reflexivity.
  - reflexivity.
  - discriminate.
  - reflexivity.
  - discriminate.
  - split; reflexivity.
  - reflexivity.
  - reflexivity.
  - intros v [<- | [<- | []]]; discriminate.
  - reflexivity.
  - reflexivity.
  - discriminate.
  - reflexivity.
  - reflexivity.
  - reflexivity.
Defined.
